(** * Tasnuva TOS: the virtual file system of [vfs.py]

    A shallow embedding of class [VFS]: the [filesystem] table of the
    SQLite store, the cursor [current_path], path normalisation and the
    operations built on them, and of the file-system commands of
    [core.py], followed by the properties of the design document that
    concern them and by further properties of the code.

    Conventions of the embedding.
    - A Python [str] is a [string]; a character is an [ascii].
    - The table [filesystem] is the list of its rows in rowid order.  The
      columns [id], [created_at] and [modified_at] are left out: no
      operation reads them.
    - A method is a function of the object ([self]) that returns an
      [outcome]: the value returned together with the object after the
      call, or the exception raised. *)

From Stdlib Require Import String Ascii List Bool Arith Lia.
From Stdlib Require Import Sorting.Sorted Sorting.Permutation Sorting.Mergesort.
From Stdlib Require Import Structures.Orders Structures.OrderedTypeEx.
Import ListNotations.

Open Scope list_scope.
Open Scope string_scope.

(** ** Python string primitives *)

Module Py.

Definition slash : ascii := "/"%char.

(** [s.startswith('/')] *)
Definition startswith_slash (s : string) : bool :=
  match s with
  | String c _ => Ascii.eqb c slash
  | EmptyString => false
  end.

(** [s.split(sep)] for a separator of one character: never empty. *)
Fixpoint split (sep : ascii) (s : string) : list string :=
  match s with
  | EmptyString => [EmptyString]
  | String c s' =>
      if Ascii.eqb c sep then EmptyString :: split sep s'
      else match split sep s' with
           | w :: ws => String c w :: ws
           | [] => [String c EmptyString]
           end
  end.

(** [sep.join(l)] *)
Fixpoint join (sep : string) (l : list string) : string :=
  match l with
  | [] => EmptyString
  | [x] => x
  | x :: l' => x ++ sep ++ join sep l'
  end.

(** [l.pop()] guarded by [if l:], as statement: the list without its
    last element, the empty list staying empty. *)
Definition pop_if_any (l : list string) : list string := removelast l.

(** [s.rstrip('/')] *)
Fixpoint rstrip_slash (s : string) : string :=
  match s with
  | EmptyString => EmptyString
  | String c s' =>
      match rstrip_slash s' with
      | EmptyString => if Ascii.eqb c slash then EmptyString else String c EmptyString
      | t => String c t
      end
  end.

(** [s == '/' * len(s)] *)
Fixpoint all_slashes (s : string) : bool :=
  match s with
  | EmptyString => true
  | String c s' => Ascii.eqb c slash && all_slashes s'
  end.

(** [(p[:i], p[i:])] for [i = p.rfind('/') + 1]. *)
Fixpoint rsplit_slash (p : string) : string * string :=
  match p with
  | EmptyString => (EmptyString, EmptyString)
  | String c p' =>
      match rsplit_slash p' with
      | (EmptyString, _) =>
          if Ascii.eqb c slash then (String c EmptyString, p')
          else (EmptyString, String c p')
      | (h, t) => (String c h, t)
      end
  end.

(** [os.path.basename] of [posixpath]. *)
Definition basename (p : string) : string := snd (rsplit_slash p).

(** [os.path.dirname] of [posixpath]:
    [head = p[:i]; if head and head != '/'*len(head): head = head.rstrip('/')]. *)
Definition dirname (p : string) : string :=
  let head := fst (rsplit_slash p) in
  if negb (head =? "") && negb (all_slashes head) then rstrip_slash head else head.

End Py.

(** ** The object *)

(** Column [type], constrained by [CHECK (type IN ('file', 'directory'))]. *)
Inductive node_type : Set := file | directory.

Definition type_text (t : node_type) : string :=
  match t with file => "file" | directory => "directory" end.

(** A row of table [filesystem]. *)
Record row : Set := mkRow {
  path : string;
  name : string;
  type : node_type;
  content : string
}.

Definition table : Set := list row.

(** An instance of class [VFS]: the table behind [db_path] and the
    attribute [current_path]. *)
Record VFS : Set := mkVFS {
  filesystem : table;
  current_path : string
}.

Definition with_filesystem (self : VFS) (t : table) : VFS :=
  mkVFS t (current_path self).

Definition with_current_path (self : VFS) (p : string) : VFS :=
  mkVFS (filesystem self) p.

(** ** [VFS.normalize_path] *)

(** One round of the loop over [path.split('/')]. *)
Definition resolve_part (parts : list string) (part : string) : list string :=
  if (part =? "") || (part =? ".") then parts
  else if part =? ".." then Py.pop_if_any parts
  else (parts ++ [part])%list.

Definition resolve_parts (l : list string) : list string :=
  fold_left resolve_part l [].

(** [return '/' + '/'.join(parts) if parts else '/'] *)
Definition render_parts (parts : list string) : string :=
  match parts with
  | [] => "/"
  | _ => "/" ++ Py.join "/" parts
  end.

Definition normalize_path (self : VFS) (p : string) : string :=
  let p :=
    if negb (Py.startswith_slash p) then
      if current_path self =? "/" then "/" ++ p
      else current_path self ++ "/" ++ p
    else p in
  render_parts (resolve_parts (Py.split Py.slash p)).

(** ** The SQLite statements the class executes *)

Module Sqlite.

(** *** The GLOB operator

    [X GLOB Y] runs SQLite's [patternCompare] on the two texts taken as C
    strings: [*] matches any run of characters (also [/]), [?] one
    character, [[...]] one character of the set and [[^...]] one character
    outside it; a [']'] right after the opening is a member, [a-b] is a
    range unless the dash is first or last, and a set that is never closed
    matches nothing. *)

Definition NUL : ascii := "000"%char.

(** [sqlite3_value_text]: the text up to its first NUL. *)
Fixpoint c_str (s : string) : string :=
  match s with
  | EmptyString => EmptyString
  | String c s' => if Ascii.eqb c NUL then EmptyString else String c (c_str s')
  end.

Inductive set_item : Set :=
| Single (c : ascii)
| Range (lo hi : ascii).

Inductive glob_token : Set :=
| MatchAll
| MatchOne
| MatchSet (invert : bool) (items : list set_item)
| Unterminated
| Literal (c : ascii).

(** Where the scan of the pattern stands: outside a set, just after [[],
    just after [[^], inside the list of a set ([prior] is [prior_c]), or
    after a dash that may still turn out to be the last of the list. *)
Inductive scan_state : Set :=
| Plain
| Opened
| OpenedInv
| InSet (invert : bool) (items : list set_item) (prior : option ascii)
| Dash (invert : bool) (items : list set_item) (lo : ascii).

Definition in_set_char (invert : bool) (items : list set_item)
    (prior : option ascii) (c : ascii) : scan_state :=
  if Ascii.eqb c "-"%char then
    match prior with
    | Some lo => Dash invert items lo
    | None => InSet invert (items ++ [Single c])%list (Some c)
    end
  else InSet invert (items ++ [Single c])%list (Some c).

Fixpoint compile (st : scan_state) (p : string) : list glob_token :=
  match p with
  | EmptyString =>
      match st with
      | Plain => []
      | _ => [Unterminated]
      end
  | String c p' =>
      match st with
      | Plain =>
          if Ascii.eqb c "*"%char then MatchAll :: compile Plain p'
          else if Ascii.eqb c "?"%char then MatchOne :: compile Plain p'
          else if Ascii.eqb c "["%char then compile Opened p'
          else Literal c :: compile Plain p'
      | Opened =>
          if Ascii.eqb c "^"%char then compile OpenedInv p'
          else if Ascii.eqb c "]"%char then compile (InSet false [Single c] None) p'
          else compile (in_set_char false [] None c) p'
      | OpenedInv =>
          if Ascii.eqb c "]"%char then compile (InSet true [Single c] None) p'
          else compile (in_set_char true [] None c) p'
      | InSet invert items prior =>
          if Ascii.eqb c "]"%char then MatchSet invert items :: compile Plain p'
          else compile (in_set_char invert items prior c) p'
      | Dash invert items lo =>
          if Ascii.eqb c "]"%char
          then MatchSet invert (items ++ [Single "-"%char])%list :: compile Plain p'
          else compile (InSet invert (items ++ [Range lo c])%list None) p'
      end
  end.

Definition item_has (c : ascii) (i : set_item) : bool :=
  match i with
  | Single c2 => Ascii.eqb c c2
  | Range lo hi =>
      (nat_of_ascii lo <=? nat_of_ascii c)%nat && (nat_of_ascii c <=? nat_of_ascii hi)%nat
  end.

Definition token_accepts (t : glob_token) (c : ascii) : bool :=
  match t with
  | MatchAll => false
  | MatchOne => true
  | MatchSet invert items => xorb (existsb (item_has c) items) invert
  | Unterminated => false
  | Literal c2 => Ascii.eqb c c2
  end.

Fixpoint glob_match (ts : list glob_token) : string -> bool :=
  match ts with
  | [] => fun s => match s with EmptyString => true | _ => false end
  | MatchAll :: ts' =>
      fix any_run (s : string) : bool :=
        glob_match ts' s ||
        match s with
        | EmptyString => false
        | String _ s' => any_run s'
        end
  | t :: ts' =>
      fun s =>
        match s with
        | EmptyString => false
        | String c s' => token_accepts t c && glob_match ts' s'
        end
  end.

(** [x GLOB pattern] *)
Definition GLOB (x pattern : string) : bool :=
  glob_match (compile Plain (c_str pattern)) (c_str x).

(** *** Statements on table [filesystem] *)

(** [... FROM filesystem WHERE path = ?] *)
Definition where_path (t : table) (p : string) : table :=
  filter (fun r => path r =? p) t.

(** [... FROM filesystem WHERE path GLOB ?] *)
Definition where_glob (t : table) (pattern : string) : table :=
  filter (fun r => GLOB (path r) pattern) t.

(** [cursor.fetchone()] *)
Definition fetchone {A : Type} (rows : list A) : option A := hd_error rows.

(** [INSERT INTO filesystem ...]: column [path] is [UNIQUE]. *)
Definition unique_ok (t : table) (r : row) : bool :=
  negb (existsb (fun x => path x =? path r) t).

(** [UPDATE filesystem SET content = ? ... WHERE path = ?] *)
Definition update_content (t : table) (c p : string) : table :=
  map (fun r => if path r =? p then mkRow (path r) (name r) (type r) c else r) t.

(** [DELETE FROM filesystem WHERE path = ?] *)
Definition delete_path (t : table) (p : string) : table :=
  filter (fun r => negb (path r =? p)) t.

End Sqlite.

(** [ORDER BY type DESC, name]: the texts compare byte by byte.  Rows that
    agree on both columns come in an order SQLite leaves open; here they
    keep their rowid order. *)
Module RowOrder <: TotalLeBool.

Definition t : Type := row.

Definition leb (a b : row) : bool :=
  match String.compare (type_text (type a)) (type_text (type b)) with
  | Gt => true
  | Lt => false
  | Eq => String.leb (name a) (name b)
  end.

Lemma leb_total : forall a b, leb a b = true \/ leb b a = true.
Proof.
  intros a b; unfold leb.
  rewrite (String.compare_antisym (type_text (type b))).
  destruct (String.compare (type_text (type a)) (type_text (type b))); simpl; auto.
  apply String.leb_total.
Qed.

End RowOrder.

Module RowSort := Sort RowOrder.

Definition order_by_type_desc_name (rows : table) : table := RowSort.sort rows.

(** ** Outcomes of a method call *)

Inductive exn : Set :=
| IntegrityError   (* a UNIQUE constraint failed *)
| TypeError.       (* subscript of [None] *)

Inductive outcome (A : Type) : Type :=
| Returned (a : A)
| Raised (e : exn).

Arguments Returned {A} a.
Arguments Raised {A} e.

Definition bind {A B : Type} (m : outcome A) (k : A -> outcome B) : outcome B :=
  match m with
  | Returned a => k a
  | Raised e => Raised e
  end.

Notation "x <- m ;; k" := (bind m (fun x => k))
  (at level 61, m at next level, right associativity).

(** [cursor.execute('INSERT INTO filesystem ...')] *)
Definition INSERT (t : table) (r : row) : outcome table :=
  if Sqlite.unique_ok t r then Returned (t ++ [r])%list else Raised IntegrityError.

(** ** [VFS.init_database] and [VFS.__init__] *)

Definition newline : string := String "010"%char EmptyString.

Definition welcome_text : string :=
  "Welcome to Tasnuva TOS!" ++ newline ++
  "This is a virtual filesystem." ++ newline ++
  "Try commands like ls, cd, mkdir, touch, cat, echo, rm." ++ newline.

Definition default_dirs : list string := ["/home"; "/tmp"; "/usr"; "/var"].

(** The three groups of INSERT statements shared by [init_database] and
    [reset_filesystem]. *)
Definition insert_defaults (t : table) : outcome table :=
  t <- INSERT t (mkRow "/" "root" directory "") ;;
  t <- fold_left
         (fun acc dir_path =>
            t <- acc ;; INSERT t (mkRow dir_path (Py.basename dir_path) directory ""))
         default_dirs (Returned t) ;;
  INSERT t (mkRow "/welcome.txt" "welcome.txt" file welcome_text).

Definition init_database (self : VFS) : outcome (unit * VFS) :=
  let t := filesystem self in
  if (length (Sqlite.where_path t "/") =? 0)%nat then
    t <- insert_defaults t ;;
    Returned (tt, with_filesystem self t)
  else Returned (tt, self).

(** [VFS(db_path)], [stored] being the rows the database file holds (none
    when the file is new). *)
Definition VFS_init (stored : table) : outcome VFS :=
  r <- init_database (mkVFS stored "/") ;;
  Returned (snd r).

(** ** Queries *)

(** [exists]: [COUNT( * ) > 0] over the rows with the normalised path. *)
Definition exists_ (self : VFS) (p : string) : bool :=
  let p := normalize_path self p in
  (0 <? length (Sqlite.where_path (filesystem self) p))%nat.

(** [return result and result[0] == 'directory'], read as a truth value:
    the [None] of a missing row counts as false. *)
Definition is_directory (self : VFS) (p : string) : bool :=
  let p := normalize_path self p in
  match Sqlite.fetchone (Sqlite.where_path (filesystem self) p) with
  | Some result => type_text (type result) =? "directory"
  | None => false
  end.

Definition is_file (self : VFS) (p : string) : bool :=
  let p := normalize_path self p in
  match Sqlite.fetchone (Sqlite.where_path (filesystem self) p) with
  | Some result => type_text (type result) =? "file"
  | None => false
  end.

(** The pattern built by [list_directory] and by [remove]. *)
Definition children_pattern (p : string) : string :=
  if p =? "/" then "/[^/]*" else p ++ "/[^/]*".

(** [list_directory(path)]; [None] as argument is the default [path=None],
    [None] as result the value returned for a missing directory. *)
Definition list_directory (self : VFS) (p : option string)
    : option (list (string * node_type)) :=
  let p := match p with None => current_path self | Some p => p end in
  let p := normalize_path self p in
  if negb (exists_ self p) || negb (is_directory self p) then None
  else
    let pattern := children_pattern p in
    let results :=
      order_by_type_desc_name
        (filter (fun r => Sqlite.GLOB (path r) pattern && negb (path r =? p))
                (filesystem self)) in
    Some (map (fun r => (name r, type r)) results).

Definition read_file (self : VFS) (p : string) : option string :=
  let p := normalize_path self p in
  if negb (exists_ self p) || negb (is_file self p) then None
  else
    match Sqlite.fetchone (Sqlite.where_path (filesystem self) p) with
    | Some result => Some (content result)
    | None => None
    end.

Definition get_current_directory (self : VFS) : string := current_path self.

(** ** Mutations *)

(** In [existing = cursor.fetchone()[0] or ''] the column is never NULL, so
    [existing] is the stored content; the methods called for their tests
    normalise the normalised path once more. *)
Definition write_file (self : VFS) (p c : string) (append : bool)
    : outcome (bool * VFS) :=
  let p := normalize_path self p in
  if exists_ self p then
    if negb (is_file self p) then Returned (false, self)
    else
      c <- (if append then
              match Sqlite.fetchone (Sqlite.where_path (filesystem self) p) with
              | Some result => Returned (content result ++ c)
              | None => Raised TypeError
              end
            else Returned c) ;;
      Returned (true, with_filesystem self (Sqlite.update_content (filesystem self) c p))
  else
    t <- INSERT (filesystem self) (mkRow p (Py.basename p) file c) ;;
    Returned (true, with_filesystem self t).

Definition create_directory (self : VFS) (p : string) : outcome (bool * VFS) :=
  let p := normalize_path self p in
  if exists_ self p then Returned (false, self)
  else
    let parent := Py.dirname p in
    if negb (parent =? p) && negb (exists_ self parent) then Returned (false, self)
    else
      t <- INSERT (filesystem self) (mkRow p (Py.basename p) directory "") ;;
      Returned (true, with_filesystem self t).

Definition remove (self : VFS) (p : string) : outcome (bool * VFS) :=
  let p := normalize_path self p in
  if negb (exists_ self p) then Returned (false, self)
  else if is_directory self p
          && (0 <? length (Sqlite.where_glob (filesystem self) (children_pattern p)))%nat
  then Returned (false, self)
  else Returned (true, with_filesystem self (Sqlite.delete_path (filesystem self) p)).

Definition change_directory (self : VFS) (p : string) : bool * VFS :=
  let p := normalize_path self p in
  if negb (exists_ self p) || negb (is_directory self p) then (false, self)
  else (true, with_current_path self p).

(** [DROP TABLE], [CREATE TABLE], then the defaults again. *)
Definition reset_filesystem (self : VFS) : outcome (bool * VFS) :=
  t <- insert_defaults [] ;;
  Returned (true, mkVFS t "/").

(** ** Sessions: sequences of calls *)

Inductive call : Set :=
| WriteFile (p c : string) (append : bool)
| CreateDirectory (p : string)
| Remove (p : string)
| ChangeDirectory (p : string)
| Reset.

Definition perform (self : VFS) (o : call) : outcome (bool * VFS) :=
  match o with
  | WriteFile p c append => write_file self p c append
  | CreateDirectory p => create_directory self p
  | Remove p => remove self p
  | ChangeDirectory p => Returned (change_directory self p)
  | Reset => reset_filesystem self
  end.

(** The object after a call.  A call that raises commits nothing and
    assigns nothing, so it leaves the object as it was. *)
Definition after (self : VFS) (o : call) : VFS :=
  match perform self o with
  | Returned (_, self') => self'
  | Raised _ => self
  end.

Definition session (self : VFS) (calls : list call) : VFS :=
  fold_left after calls self.

(** The object a new database starts with. *)
Definition startup : VFS :=
  mkVFS [ mkRow "/" "root" directory "";
          mkRow "/home" "home" directory "";
          mkRow "/tmp" "tmp" directory "";
          mkRow "/usr" "usr" directory "";
          mkRow "/var" "var" directory "";
          mkRow "/welcome.txt" "welcome.txt" file welcome_text ] "/".

(** ** The commands of [core.py]

    The default command table of [Core.init_commands_db]: each entry is
    the function the stored text defines, taking the arguments of the
    command line and the [VFS] and returning the text to print.  The
    tokens come from [shlex.split], which is not modelled; [help] and
    [clear] work on the command table and the terminal and are left out. *)

(** [c.isspace()] for the characters up to 255. *)
Definition isspace (c : ascii) : bool :=
  existsb (Nat.eqb (nat_of_ascii c)) [9; 10; 11; 12; 13; 28; 29; 30; 31; 32; 133; 160].

(** [s.rstrip()] *)
Fixpoint rstrip (s : string) : string :=
  match s with
  | EmptyString => EmptyString
  | String c s' =>
      match rstrip s' with
      | EmptyString => if isspace c then EmptyString else String c EmptyString
      | t => String c t
      end
  end.

(** [x in args] *)
Definition contains (x : string) (args : list string) : bool :=
  existsb (fun a => a =? x) args.

(** [(args[:i], args[i+1:])] for [i = args.index(x)]; [None] when [x] is
    not in [args]. *)
Fixpoint split_at_first (x : string) (args : list string)
    : option (list string * list string) :=
  match args with
  | [] => None
  | a :: rest =>
      if a =? x then Some ([], rest)
      else match split_at_first x rest with
           | Some (before, after) => Some (a :: before, after)
           | None => None
           end
  end.


Definition pwd_command (args : list string) (vfs : VFS) : outcome (string * VFS) :=
  Returned (get_current_directory vfs, vfs).

Definition cd_command (args : list string) (vfs : VFS) : outcome (string * VFS) :=
  let p := match args with [] => "/" | a :: _ => a end in
  let (ok, vfs) := change_directory vfs p in
  if ok then Returned ("", vfs)
  else Returned ("cd: " ++ p ++ ": No such directory", vfs).

Definition cat_command (args : list string) (vfs : VFS) : outcome (string * VFS) :=
  match args with
  | [] => Returned ("cat: missing file operand", vfs)
  | a :: _ =>
      match read_file vfs a with
      | None => Returned ("cat: " ++ a ++ ": No such file", vfs)
      | Some c => Returned (rstrip c, vfs)
      end
  end.

(** The body shared by the branches for [>] and [>>]: [after] is empty
    when the operator is the last argument, else it starts with the file
    name. *)
Definition echo_redirect (before after : list string) (append : bool) (vfs : VFS)
    : outcome (string * VFS) :=
  match after with
  | [] => Returned ("echo: missing filename for redirection", vfs)
  | filename :: _ =>
      let text := Py.join " " before in
      r <- write_file vfs filename (text ++ newline) append ;;
      if fst r then Returned ("", snd r)
      else Returned ("echo: cannot write to " ++ filename, snd r)
  end.

Definition echo_command (args : list string) (vfs : VFS) : outcome (string * VFS) :=
  match args with
  | [] => Returned ("", vfs)
  | _ =>
      match split_at_first ">" args with
      | Some (before, after) => echo_redirect before after false vfs
      | None =>
          match split_at_first ">>" args with
          | Some (before, after) => echo_redirect before after true vfs
          | None => Returned (Py.join " " args, vfs)
          end
      end
  end.

(** The loop [for dirname in args] of [mkdir_command]. *)
Fixpoint mkdir_loop (args : list string) (vfs : VFS) : outcome (string * VFS) :=
  match args with
  | [] => Returned ("", vfs)
  | dirname :: rest =>
      r <- create_directory vfs dirname ;;
      if negb (fst r)
      then Returned ("mkdir: cannot create directory '" ++ dirname ++ "'", snd r)
      else mkdir_loop rest (snd r)
  end.

Definition mkdir_command (args : list string) (vfs : VFS) : outcome (string * VFS) :=
  match args with
  | [] => Returned ("mkdir: missing operand", vfs)
  | _ => mkdir_loop args vfs
  end.

(** The loop [for filename in args] of [touch_command]. *)
Fixpoint touch_loop (args : list string) (vfs : VFS) : outcome (string * VFS) :=
  match args with
  | [] => Returned ("", vfs)
  | filename :: rest =>
      r <- write_file vfs filename "" false ;;
      if negb (fst r)
      then Returned ("touch: cannot create '" ++ filename ++ "'", snd r)
      else touch_loop rest (snd r)
  end.

Definition touch_command (args : list string) (vfs : VFS) : outcome (string * VFS) :=
  match args with
  | [] => Returned ("touch: missing file operand", vfs)
  | _ => touch_loop args vfs
  end.




(** * Vocabulary of the properties *)

(** ** Paths *)

(** [c in s] *)
Fixpoint has_char (c : ascii) (s : string) : bool :=
  match s with
  | EmptyString => false
  | String c' s' => Ascii.eqb c' c || has_char c s'
  end.

(** [s.endswith('/')] *)
Fixpoint ends_in_slash (s : string) : bool :=
  match s with
  | EmptyString => false
  | String c EmptyString => Ascii.eqb c Py.slash
  | String _ s' => ends_in_slash s'
  end.

(** No [//] in [s]. *)
Fixpoint no_double_slash (s : string) : bool :=
  match s with
  | String a (String b _ as s') =>
      negb (Ascii.eqb a Py.slash && Ascii.eqb b Py.slash) && no_double_slash s'
  | _ => true
  end.

(** A retained path segment: not empty, not [.] or [..], free of [/]. *)
Definition segment (w : string) : Prop :=
  w <> "" /\ w <> "." /\ w <> ".." /\ has_char Py.slash w = false.

(** A canonical path: [/], or [/]-led segments joined by [/]. *)
Definition canonical (p : string) : Prop :=
  exists parts, Forall segment parts /\ p = render_parts parts.

(** The path of [d] up to and including the [/] that opens its children. *)
Definition children_prefix (d : string) : string :=
  if d =? "/" then d else d ++ "/".

(** The paths strictly below [d], at any depth. *)
Definition nested_under (d x : string) : Prop :=
  exists rest, rest <> "" /\ x = children_prefix d ++ rest.

(** ** Patterns *)




(** ** Rows *)

(** The first row with a given path, which is what [fetchone] delivers. *)
Definition lookup (t : table) (p : string) : option row :=
  Sqlite.fetchone (Sqlite.where_path t p).

Definition is_some {A : Type} (o : option A) : bool :=
  match o with Some _ => true | None => false end.

(** The row as [UPDATE ... SET content = c] leaves it. *)
Definition set_content (c : string) (r : row) : row :=
  mkRow (path r) (name r) (type r) c.

(** [result[0] == 'directory'] and [result[0] == 'file'] *)
Definition is_dir_row (r : row) : bool := type_text (type r) =? "directory".
Definition is_file_row (r : row) : bool := type_text (type r) =? "file".

(** The order of the rows a listing returns: files first, then by name. *)
Definition listed_before (a b : string * node_type) : Prop :=
  (snd a = file /\ snd b = directory) \/
  (snd a = snd b /\ String.leb (fst a) (fst b) = true).

(** The order the design document states: directories first, then by
    name. *)
Definition directories_first (a b : string * node_type) : Prop :=
  (snd a = directory /\ snd b = file) \/
  (snd a = snd b /\ String.leb (fst a) (fst b) = true).

(** ** Objects *)

(** Every stored path is canonical, no path is stored twice, and the
    cursor is canonical. *)
Definition well_formed (self : VFS) : Prop :=
  Forall (fun r => canonical (path r)) (filesystem self) /\
  NoDup (map path (filesystem self)) /\
  canonical (current_path self).

(** Exactly one row has path [/], and it is a directory. *)
Definition root_in_place (self : VFS) : Prop :=
  exists r, Sqlite.where_path (filesystem self) "/" = [r] /\ type r = directory.

(** The row found at [/] is a directory. *)
Definition root_directory (self : VFS) : Prop :=
  exists r, lookup (filesystem self) "/" = Some r /\ type r = directory.

(** The call is a [remove] of the root that succeeds. *)
Definition removes_root (self : VFS) (o : call) : bool :=
  match o with
  | Remove p =>
      (normalize_path self p =? "/") &&
      match remove self p with
      | Returned (true, _) => true
      | _ => false
      end
  | _ => false
  end.

(** No call of the session is a successful [remove] of the root. *)
Fixpoint root_kept (self : VFS) (calls : list call) : Prop :=
  match calls with
  | [] => True
  | o :: rest => removes_root self o = false /\ root_kept (after self o) rest
  end.

(** The cursor names a stored directory. *)
Definition cursor_valid (self : VFS) : Prop :=
  is_directory self (current_path self) = true.

(** ** Calls and rows *)

(** The normalised path a call writes, creates or removes. *)
Definition touched (self : VFS) (o : call) : option string :=
  match o with
  | WriteFile p _ _ | CreateDirectory p | Remove p => Some (normalize_path self p)
  | ChangeDirectory _ | Reset => None
  end.

(** A directory row has no content, and the name of a row is what
    [os.path.basename] makes of its path, the root of a new store being
    named [root]. *)
Definition tidy_row (r : row) : Prop :=
  (type r = directory -> content r = "") /\
  (name r = Py.basename (path r) \/ (path r = "/" /\ name r = "root")).

(** The path [normalize_path] splits: the argument, put behind the
    cursor when it does not start with [/]. *)
Definition absolute_form (self : VFS) (p : string) : string :=
  if negb (Py.startswith_slash p) then
    if current_path self =? "/" then "/" ++ p
    else current_path self ++ "/" ++ p
  else p.

(** * Properties *)

(** ** Strings *)

Lemma append_assoc (a b c : string) : (a ++ b) ++ c = a ++ b ++ c.
Proof. induction a as [|x a IH]; simpl; [reflexivity | now rewrite IH]. Qed.

Lemma append_empty_r (a : string) : a ++ "" = a.
Proof. induction a as [|x a IH]; simpl; [reflexivity | now rewrite IH]. Qed.

Lemma split_not_nil sep s : Py.split sep s <> [].
Proof.
  destruct s as [|c s]; simpl; [discriminate|].
  destruct (Ascii.eqb c sep); [discriminate|].
  destruct (Py.split sep s); discriminate.
Qed.

Lemma split_free sep s : Forall (fun w => has_char sep w = false) (Py.split sep s).
Proof.
  induction s as [|c s IH]; simpl.
  - constructor; [reflexivity | constructor].
  - destruct (Ascii.eqb c sep) eqn:E.
    + constructor; [reflexivity | exact IH].
    + destruct (Py.split sep s) as [|w ws].
      * constructor; [simpl; now rewrite E | constructor].
      * inversion IH; subst. constructor; [simpl; now rewrite E | assumption].
Qed.

Lemma split_word sep w : has_char sep w = false -> Py.split sep w = [w].
Proof.
  induction w as [|c w IH]; simpl; intros H; [reflexivity|].
  apply orb_false_iff in H as [Hc Hw].
  rewrite Hc, (IH Hw). reflexivity.
Qed.

Lemma split_word_sep sep w rest :
  has_char sep w = false ->
  Py.split sep (w ++ String sep rest) = w :: Py.split sep rest.
Proof.
  induction w as [|c w IH]; simpl; intros H.
  - now rewrite Ascii.eqb_refl.
  - apply orb_false_iff in H as [Hc Hw].
    rewrite Hc, (IH Hw). reflexivity.
Qed.

Lemma split_join sep l :
  l <> [] -> Forall (fun w => has_char sep w = false) l ->
  Py.split sep (Py.join (String sep "") l) = l.
Proof.
  induction l as [|w l IH]; intros Hne Hall; [contradiction|].
  inversion Hall as [|? ? Hw Hl]; subst.
  destruct l as [|w' l'].
  - simpl. now apply split_word.
  - change (Py.join (String sep "") (w :: w' :: l'))
      with (w ++ String sep (Py.join (String sep "") (w' :: l'))).
    rewrite split_word_sep by assumption.
    rewrite IH; [reflexivity | discriminate | assumption].
Qed.

(** ** Normalisation *)

Lemma segment_free w : segment w -> has_char Py.slash w = false.
Proof. unfold segment; tauto. Qed.

Lemma resolve_part_segment parts w :
  segment w -> resolve_part parts w = (parts ++ [w])%list.
Proof.
  intros (H1 & H2 & H3 & _). unfold resolve_part.
  apply String.eqb_neq in H1, H2, H3. now rewrite H1, H2, H3.
Qed.

Lemma resolve_segments l acc :
  Forall segment l -> fold_left resolve_part l acc = (acc ++ l)%list.
Proof.
  revert acc; induction l as [|w l IH]; intros acc H; simpl.
  - now rewrite app_nil_r.
  - inversion H; subst.
    rewrite resolve_part_segment, IH by assumption.
    rewrite <- app_assoc. reflexivity.
Qed.

Lemma Forall_removelast {A} (P : A -> Prop) l : Forall P l -> Forall P (removelast l).
Proof.
  induction 1 as [|x l Hx Hl IH]; simpl; [constructor|].
  destruct l; [constructor | constructor; assumption].
Qed.

Lemma resolve_part_keeps parts w :
  Forall segment parts -> has_char Py.slash w = false ->
  Forall segment (resolve_part parts w).
Proof.
  intros Hp Hw. unfold resolve_part.
  destruct (w =? "") eqn:E1; [assumption|].
  destruct (w =? ".") eqn:E2; [assumption|]. simpl.
  destruct (w =? "..") eqn:E3; [now apply Forall_removelast|].
  apply Forall_app; split; [assumption|].
  constructor; [|constructor].
  apply String.eqb_neq in E1, E2, E3. repeat split; assumption.
Qed.

Lemma resolve_keeps l acc :
  Forall segment acc -> Forall (fun w => has_char Py.slash w = false) l ->
  Forall segment (fold_left resolve_part l acc).
Proof.
  revert acc; induction l as [|w l IH]; intros acc Ha Hl; simpl; [assumption|].
  inversion Hl; subst. apply IH; [now apply resolve_part_keeps | assumption].
Qed.

Lemma normalize_path_canonical self p : canonical (normalize_path self p).
Proof.
  unfold normalize_path. eexists; split; [|reflexivity].
  apply resolve_keeps; [constructor | apply split_free].
Qed.

Lemma render_parts_head parts : exists t, render_parts parts = String Py.slash t.
Proof. destruct parts; simpl; eauto. Qed.

Lemma normalize_render self parts :
  Forall segment parts -> normalize_path self (render_parts parts) = render_parts parts.
Proof.
  intros H. unfold normalize_path.
  destruct parts as [|w ws]; [reflexivity|].
  change (render_parts (w :: ws)) with (String Py.slash (Py.join "/" (w :: ws))).
  cbn [Py.startswith_slash negb]. rewrite Ascii.eqb_refl. cbn [negb].
  cbn [Py.split]. rewrite Ascii.eqb_refl.
  change "/" with (String Py.slash "").
  rewrite split_join;
    [| discriminate | eapply Forall_impl; [|exact H]; intros; now apply segment_free].
  unfold resolve_parts.
  change (fold_left resolve_part ("" :: w :: ws) [])
    with (fold_left resolve_part (w :: ws) []).
  now rewrite resolve_segments.
Qed.

Lemma normalize_canonical self p : canonical p -> normalize_path self p = p.
Proof. intros (parts & H & ->). now apply normalize_render. Qed.

Lemma normalize_path_idem self self' p :
  normalize_path self' (normalize_path self p) = normalize_path self p.
Proof. apply normalize_canonical, normalize_path_canonical. Qed.

(** C9.  Normalising a normalised path again, against the same base or any
    other, gives it back. *)
Theorem normalize_path_idempotent :
  forall (p b b' : string) (t t' : table),
    normalize_path (mkVFS t b) (normalize_path (mkVFS t b) p)
      = normalize_path (mkVFS t b) p /\
    normalize_path (mkVFS t' b') (normalize_path (mkVFS t b) p)
      = normalize_path (mkVFS t b) p.
Proof. intros; split; apply normalize_path_idem. Qed.

(** ** Rows found by path *)

Lemma exists_lookup self p :
  exists_ self p = is_some (lookup (filesystem self) (normalize_path self p)).
Proof.
  unfold exists_, lookup, Sqlite.fetchone.
  now destruct (Sqlite.where_path (filesystem self) (normalize_path self p)).
Qed.

Lemma exists_normalized self p :
  exists_ self (normalize_path self p) = exists_ self p.
Proof. unfold exists_. now rewrite normalize_path_idem. Qed.

Lemma is_file_normalized self p :
  is_file self (normalize_path self p) = is_file self p.
Proof. unfold is_file. now rewrite normalize_path_idem. Qed.

Lemma is_directory_normalized self p :
  is_directory self (normalize_path self p) = is_directory self p.
Proof. unfold is_directory. now rewrite normalize_path_idem. Qed.

Lemma lookup_path t p r : lookup t p = Some r -> path r = p.
Proof.
  unfold lookup, Sqlite.fetchone, Sqlite.where_path.
  induction t as [|x t IH]; simpl; [discriminate|].
  destruct (path x =? p) eqn:E; simpl; [|exact IH].
  intros [= <-]. now apply String.eqb_eq.
Qed.

Lemma lookup_In t p r : lookup t p = Some r -> In r t.
Proof.
  unfold lookup, Sqlite.fetchone, Sqlite.where_path.
  induction t as [|x t IH]; simpl; [discriminate|].
  destruct (path x =? p); simpl; [intros [= <-]; now left | auto].
Qed.

Lemma lookup_None t p : lookup t p = None <-> forall r, In r t -> path r <> p.
Proof.
  unfold lookup, Sqlite.fetchone, Sqlite.where_path.
  induction t as [|x t IH]; simpl; [tauto|].
  destruct (path x =? p) eqn:E; simpl.
  - apply String.eqb_eq in E. split; [discriminate|].
    intros H. exfalso. apply (H x); auto.
  - apply String.eqb_neq in E. rewrite IH. split.
    + intros H r [<-|Hr]; auto.
    + intros H r Hr. apply H. now right.
Qed.

Lemma lookup_app (t : table) (r : row) (p : string) :
  lookup (t ++ [r])%list p =
  match lookup t p with
  | Some x => Some x
  | None => if path r =? p then Some r else None
  end.
Proof.
  unfold lookup, Sqlite.fetchone, Sqlite.where_path.
  induction t as [|x t IH]; simpl.
  - now destruct (path r =? p).
  - destruct (path x =? p); simpl; [reflexivity | exact IH].
Qed.

Lemma lookup_update t c p q :
  lookup (Sqlite.update_content t c p) q =
  if p =? q then option_map (set_content c) (lookup t q) else lookup t q.
Proof.
  unfold lookup, Sqlite.fetchone, Sqlite.where_path, Sqlite.update_content.
  induction t as [|x t IH]; simpl; [now destruct (p =? q)|].
  destruct (path x =? p) eqn:E1; destruct (path x =? q) eqn:E2; simpl;
    try rewrite E2; simpl; try exact IH.
  - replace (p =? q) with true; [reflexivity|].
    apply String.eqb_eq in E1, E2. symmetry. apply String.eqb_eq. congruence.
  - replace (p =? q) with false; [reflexivity|].
    apply String.eqb_neq in E1. apply String.eqb_eq in E2.
    symmetry. apply String.eqb_neq. congruence.
Qed.

Lemma lookup_delete t p q :
  lookup (Sqlite.delete_path t p) q = if p =? q then None else lookup t q.
Proof.
  unfold lookup, Sqlite.fetchone, Sqlite.where_path, Sqlite.delete_path.
  induction t as [|x t IH]; simpl; [now destruct (p =? q)|].
  destruct (path x =? p) eqn:E1; destruct (path x =? q) eqn:E2; simpl;
    try rewrite E2; simpl; try exact IH.
  - rewrite IH. replace (p =? q) with true; [reflexivity|].
    apply String.eqb_eq in E1, E2. symmetry. apply String.eqb_eq. congruence.
  - replace (p =? q) with false; [reflexivity|].
    apply String.eqb_neq in E1. apply String.eqb_eq in E2.
    symmetry. apply String.eqb_neq. congruence.
Qed.

Lemma unique_ok_lookup t r :
  Sqlite.unique_ok t r = negb (is_some (lookup t (path r))).
Proof.
  unfold Sqlite.unique_ok, lookup, Sqlite.fetchone, Sqlite.where_path. f_equal.
  induction t as [|x t IH]; simpl; [reflexivity|].
  destruct (path x =? path r); simpl; [reflexivity | exact IH].
Qed.

Lemma INSERT_fresh t r :
  lookup t (path r) = None -> INSERT t r = Returned (t ++ [r])%list.
Proof. intros H. unfold INSERT. now rewrite unique_ok_lookup, H. Qed.

(** ** Kinds of a stored node *)

(** C10.  A path is never both a file and a directory, and it exists
    exactly when it is one of the two. *)
Theorem file_and_directory_exclusive :
  forall (self : VFS) (p : string),
    (is_file self p && is_directory self p = false) /\
    (exists_ self p = true <-> xorb (is_file self p) (is_directory self p) = true).
Proof.
  intros self p. rewrite exists_lookup. unfold is_file, is_directory.
  fold (lookup (filesystem self) (normalize_path self p)).
  destruct (lookup (filesystem self) (normalize_path self p)) as [r|]; simpl.
  - destruct (type r); simpl; intuition.
  - intuition discriminate.
Qed.

(** ** The methods in terms of the row found *)

Lemma is_file_row_dir r : is_file_row r = negb (is_dir_row r).
Proof. unfold is_file_row, is_dir_row. now destruct (type r). Qed.

Lemma normalize_path_cursor self self' p :
  current_path self = current_path self' ->
  normalize_path self p = normalize_path self' p.
Proof. unfold normalize_path. now intros ->. Qed.

Lemma is_directory_lookup self p :
  is_directory self p =
  match lookup (filesystem self) (normalize_path self p) with
  | Some r => is_dir_row r
  | None => false
  end.
Proof. reflexivity. Qed.

Lemma is_file_lookup self p :
  is_file self p =
  match lookup (filesystem self) (normalize_path self p) with
  | Some r => is_file_row r
  | None => false
  end.
Proof. reflexivity. Qed.

Lemma read_file_lookup self p :
  read_file self p =
  match lookup (filesystem self) (normalize_path self p) with
  | Some r => if is_file_row r then Some (content r) else None
  | None => None
  end.
Proof.
  unfold read_file. rewrite exists_normalized, is_file_normalized.
  rewrite exists_lookup, is_file_lookup.
  fold (lookup (filesystem self) (normalize_path self p)).
  destruct (lookup (filesystem self) (normalize_path self p)) as [r|]; simpl;
    [now destruct (is_file_row r) | reflexivity].
Qed.

Lemma write_file_lookup self p c append :
  write_file self p c append =
  let q := normalize_path self p in
  match lookup (filesystem self) q with
  | Some r =>
      if is_file_row r
      then Returned (true, with_filesystem self
                             (Sqlite.update_content (filesystem self)
                                (if append then content r ++ c else c) q))
      else Returned (false, self)
  | None =>
      Returned (true, with_filesystem self
                        (filesystem self ++ [mkRow q (Py.basename q) file c])%list)
  end.
Proof.
  unfold write_file. rewrite exists_normalized, is_file_normalized.
  rewrite exists_lookup, is_file_lookup.
  fold (lookup (filesystem self) (normalize_path self p)).
  destruct (lookup (filesystem self) (normalize_path self p)) as [r|] eqn:E; simpl.
  - destruct (is_file_row r); simpl; [|reflexivity]. now destruct append.
  - now rewrite INSERT_fresh.
Qed.

Lemma create_directory_lookup self p :
  create_directory self p =
  let q := normalize_path self p in
  match lookup (filesystem self) q with
  | Some _ => Returned (false, self)
  | None =>
      if negb (Py.dirname q =? q) && negb (exists_ self (Py.dirname q))
      then Returned (false, self)
      else Returned (true, with_filesystem self
                             (filesystem self ++ [mkRow q (Py.basename q) directory ""])%list)
  end.
Proof.
  unfold create_directory. rewrite exists_normalized, exists_lookup.
  destruct (lookup (filesystem self) (normalize_path self p)) as [r|] eqn:E; simpl;
    [reflexivity|].
  destruct (negb (Py.dirname (normalize_path self p) =? normalize_path self p)
            && negb (exists_ self (Py.dirname (normalize_path self p))));
    [reflexivity|].
  now rewrite INSERT_fresh.
Qed.

Lemma remove_lookup self p :
  remove self p =
  let q := normalize_path self p in
  match lookup (filesystem self) q with
  | None => Returned (false, self)
  | Some r =>
      if is_dir_row r
         && (0 <? length (Sqlite.where_glob (filesystem self) (children_pattern q)))%nat
      then Returned (false, self)
      else Returned (true, with_filesystem self (Sqlite.delete_path (filesystem self) q))
  end.
Proof.
  unfold remove. rewrite exists_normalized, is_directory_normalized.
  rewrite exists_lookup, is_directory_lookup.
  now destruct (lookup (filesystem self) (normalize_path self p)).
Qed.

Lemma change_directory_lookup self p :
  change_directory self p =
  let q := normalize_path self p in
  match lookup (filesystem self) q with
  | Some r => if is_dir_row r then (true, with_current_path self q) else (false, self)
  | None => (false, self)
  end.
Proof.
  unfold change_directory. rewrite exists_normalized, is_directory_normalized.
  rewrite exists_lookup, is_directory_lookup.
  destruct (lookup (filesystem self) (normalize_path self p)) as [r|]; simpl;
    [now destruct (is_dir_row r) | reflexivity].
Qed.

Lemma reset_filesystem_startup self : reset_filesystem self = Returned (true, startup).
Proof. reflexivity. Qed.

Lemma VFS_init_startup : VFS_init [] = Returned startup.
Proof. reflexivity. Qed.

(** No call raises: the INSERT statements come after a failed existence
    test, and [fetchone()[0]] after a successful one. *)
Lemma perform_returns self o : exists b self', perform self o = Returned (b, self').
Proof.
  destruct o as [p c a|p|p| p |]; simpl.
  - rewrite write_file_lookup. cbv zeta.
    destruct (lookup _ _) as [r|]; [destruct (is_file_row r)|]; eauto.
  - rewrite create_directory_lookup. cbv zeta.
    destruct (lookup _ _) as [r|]; [eauto|].
    destruct (_ && _); eauto.
  - rewrite remove_lookup. cbv zeta.
    destruct (lookup _ _) as [r|]; [|eauto].
    destruct (_ && _); eauto.
  - destruct (change_directory self p); eauto.
  - rewrite reset_filesystem_startup; eauto.
Qed.

(** ** Writing and reading *)

(** C7.  Writing [a] and then appending [b] to a path that is not a
    directory leaves [a ++ b] to be read there. *)
Theorem write_then_append_reads_concatenation :
  forall (self : VFS) (p a b : string),
    is_directory self p = false ->
    exists self1 self2,
      write_file self p a false = Returned (true, self1) /\
      write_file self1 p b true = Returned (true, self2) /\
      read_file self2 p = Some (a ++ b).
Proof.
  intros self p a b Hdir.
  rewrite is_directory_lookup in Hdir.
  set (q := normalize_path self p) in *.
  assert (Hq : forall t, normalize_path (with_filesystem self t) p = q)
    by (intros t; now apply normalize_path_cursor).
  destruct (lookup (filesystem self) q) as [r|] eqn:E.
  - assert (Hf : is_file_row r = true) by (rewrite is_file_row_dir, Hdir; reflexivity).
    eexists. eexists. split; [|split].
    + rewrite write_file_lookup. cbv zeta. fold q. rewrite E, Hf. reflexivity.
    + rewrite write_file_lookup. cbv zeta. rewrite Hq. cbn [filesystem with_filesystem].
      rewrite lookup_update, String.eqb_refl, E. cbn [option_map].
      change (is_file_row (set_content a r)) with (is_file_row r). rewrite Hf.
      reflexivity.
    + rewrite read_file_lookup.
      change (normalize_path _ p) with (normalize_path (with_filesystem self []) p).
      rewrite Hq. cbn [filesystem with_filesystem].
      rewrite !lookup_update, String.eqb_refl, E. cbn [option_map].
      change (is_file_row (set_content _ (set_content a r))) with (is_file_row r).
      now rewrite Hf.
  - eexists. eexists. split; [|split].
    + rewrite write_file_lookup. cbv zeta. fold q. rewrite E. reflexivity.
    + rewrite write_file_lookup. cbv zeta. rewrite Hq. cbn [filesystem with_filesystem].
      rewrite lookup_app, E. cbn [path]. rewrite String.eqb_refl.
      reflexivity.
    + rewrite read_file_lookup.
      change (normalize_path _ p) with (normalize_path (with_filesystem self []) p).
      rewrite Hq. cbn [filesystem with_filesystem].
      rewrite lookup_update, String.eqb_refl, lookup_app, E. cbn [path].
      now rewrite String.eqb_refl.
Qed.

Lemma write_then_append_reads_concatenation_witness :
  is_directory startup "/tmp/log" = false /\
  exists self1 self2,
    write_file startup "/tmp/log" "ab" false = Returned (true, self1) /\
    write_file self1 "/tmp/log" "cd" true = Returned (true, self2) /\
    read_file self2 "/tmp/log" = Some ("ab" ++ "cd").
Proof.
  split; [reflexivity|].
  apply (write_then_append_reads_concatenation startup "/tmp/log" "ab" "cd").
  reflexivity.
Defined.

(** ** Reset *)

(** C8.  Whatever was done before, [reset_filesystem] succeeds and leaves
    the object a new database starts with: [/] lists the five default
    entries (the file first in the sequence), the cursor
    is [/] and the welcome file holds the fixed text. *)
Theorem reset_restores_startup :
  forall calls : list call,
    let self := session startup calls in
    VFS_init [] = Returned startup /\
    reset_filesystem self = Returned (true, startup) /\
    after self Reset = startup /\
    list_directory startup (Some "/")
      = Some [("welcome.txt", file); ("home", directory); ("tmp", directory);
              ("usr", directory); ("var", directory)] /\
    (forall l, list_directory startup (Some "/") = Some l ->
       Permutation l [("home", directory); ("tmp", directory); ("usr", directory);
                      ("var", directory); ("welcome.txt", file)]) /\
    get_current_directory startup = "/" /\
    read_file startup "/welcome.txt" = Some welcome_text.
Proof.
  intros calls self. repeat split; try reflexivity.
  intros l H. vm_compute in H. injection H as <-.
  apply Permutation_sym.
  change [("home", directory); ("tmp", directory); ("usr", directory);
          ("var", directory); ("welcome.txt", file)]
    with ([("home", directory); ("tmp", directory); ("usr", directory);
           ("var", directory)] ++ [("welcome.txt", file)])%list.
  apply Permutation_sym, Permutation_cons_append.
Qed.

(** ** Listing depth *)

(** C1.  The listing of [/a] once [/a], [/a/b] and [/a/b/f] exist: the
    [*] of the pattern runs across [/], so the file two levels down is
    listed as well. *)
Theorem list_directory_reaches_below_children :
  let self := session startup [CreateDirectory "/a"; CreateDirectory "/a/b";
                               WriteFile "/a/b/f" "x" false] in
  lookup (filesystem self) "/a/b/f" = Some (mkRow "/a/b/f" "f" file "x") /\
  Sqlite.GLOB "/a/b/f" (children_pattern "/a") = true /\
  list_directory self (Some "/a") = Some [("f", file); ("b", directory)].
Proof. vm_compute. repeat split; reflexivity. Qed.

(** ** Removal of directories *)

(** C2.  A directory whose name reads as a GLOB set is removed although a
    node lies below it, and one whose name reads as a wildcard is kept
    although nothing lies below it: the path enters the pattern as it is. *)
Theorem remove_guard_misreads_pattern_characters :
  (let self := session startup [CreateDirectory "/[b]"; WriteFile "/[b]/x" "" false] in
   is_directory self "/[b]" = true /\
   (exists r, In r (filesystem self) /\ nested_under "/[b]" (path r)) /\
   exists self', remove self "/[b]" = Returned (true, self') /\
                 exists_ self' "/[b]" = false /\
                 exists_ self' "/[b]/x" = true) /\
  (let self := session startup [WriteFile "/home/x" "" false; CreateDirectory "/*"] in
   is_directory self "/*" = true /\
   (forall r, In r (filesystem self) -> ~ nested_under "/*" (path r)) /\
   remove self "/*" = Returned (false, self)).
Proof.
  split.
  - cbv zeta. split; [reflexivity|]. split.
    + exists (mkRow "/[b]/x" "x" file ""). split.
      * vm_compute. tauto.
      * exists "x". split; [discriminate | reflexivity].
    + eexists. split; [vm_compute; reflexivity|]. split; reflexivity.
  - cbv zeta. split; [reflexivity|]. split; [|reflexivity].
    intros r Hr (rest & Hne & Heq). vm_compute in Hr.
    destruct rest as [|c rest]; [now apply Hne|].
    repeat (destruct Hr as [<-|Hr]; [discriminate Heq|]).
    exact Hr.
Qed.

(** ** The object after each call *)

Lemma after_write_file self p c a :
  after self (WriteFile p c a) =
  let q := normalize_path self p in
  match lookup (filesystem self) q with
  | Some r =>
      if is_file_row r
      then with_filesystem self
             (Sqlite.update_content (filesystem self)
                (if a then content r ++ c else c) q)
      else self
  | None =>
      with_filesystem self (filesystem self ++ [mkRow q (Py.basename q) file c])%list
  end.
Proof.
  unfold after, perform. rewrite write_file_lookup. cbv zeta.
  destruct (lookup _ _) as [r|]; [now destruct (is_file_row r) | reflexivity].
Qed.

Lemma after_create_directory self p :
  after self (CreateDirectory p) =
  let q := normalize_path self p in
  match lookup (filesystem self) q with
  | Some _ => self
  | None =>
      if negb (Py.dirname q =? q) && negb (exists_ self (Py.dirname q))
      then self
      else with_filesystem self
             (filesystem self ++ [mkRow q (Py.basename q) directory ""])%list
  end.
Proof.
  unfold after, perform. rewrite create_directory_lookup. cbv zeta.
  destruct (lookup _ _) as [r|]; [reflexivity | now destruct (_ && _)].
Qed.

Lemma after_remove self p :
  after self (Remove p) =
  let q := normalize_path self p in
  match lookup (filesystem self) q with
  | None => self
  | Some r =>
      if is_dir_row r
         && (0 <? length (Sqlite.where_glob (filesystem self) (children_pattern q)))%nat
      then self
      else with_filesystem self (Sqlite.delete_path (filesystem self) q)
  end.
Proof.
  unfold after, perform. rewrite remove_lookup. cbv zeta.
  destruct (lookup _ _) as [r|]; [now destruct (_ && _) | reflexivity].
Qed.

Lemma after_change_directory self p :
  after self (ChangeDirectory p) =
  let q := normalize_path self p in
  match lookup (filesystem self) q with
  | Some r => if is_dir_row r then with_current_path self q else self
  | None => self
  end.
Proof.
  unfold after, perform. rewrite change_directory_lookup. cbv zeta.
  destruct (lookup _ _) as [r|]; [now destruct (is_dir_row r) | reflexivity].
Qed.

Lemma after_reset self : after self Reset = startup.
Proof. reflexivity. Qed.

Lemma session_snoc self calls o :
  session self (calls ++ [o])%list = after (session self calls) o.
Proof. unfold session. now rewrite fold_left_app. Qed.

(** An induction principle for the states a session reaches. *)
Lemma session_ind (P : VFS -> Prop) (self : VFS) :
  P self -> (forall s o, P s -> P (after s o)) -> forall calls, P (session self calls).
Proof.
  intros H0 Hstep calls. revert self H0.
  induction calls as [|o calls IH]; intros self H0; simpl; [assumption|].
  apply IH, Hstep, H0.
Qed.

(** ** The stored paths *)

Lemma update_content_paths t c q :
  map path (Sqlite.update_content t c q) = map path t.
Proof.
  unfold Sqlite.update_content. rewrite map_map. apply map_ext.
  intros r. now destruct (path r =? q).
Qed.

Lemma NoDup_map_filter {A B} (f : A -> B) (g : A -> bool) l :
  NoDup (map f l) -> NoDup (map f (filter g l)).
Proof.
  induction l as [|x l IH]; simpl; intros H; [constructor|].
  inversion H as [|? ? Hx Hl]; subst.
  destruct (g x); simpl; [|now apply IH].
  constructor; [|now apply IH].
  intros Hin. apply Hx. apply in_map_iff in Hin as (y & <- & Hy).
  apply in_map. now apply filter_In in Hy.
Qed.

Lemma well_formed_table self t :
  well_formed self ->
  Forall (fun r => canonical (path r)) t -> NoDup (map path t) ->
  well_formed (with_filesystem self t).
Proof. intros (_ & _ & Hc) Ht Hn. repeat split; assumption. Qed.

Lemma well_formed_update self c q :
  well_formed self ->
  well_formed (with_filesystem self (Sqlite.update_content (filesystem self) c q)).
Proof.
  intros (Ha & Hb & Hc). split; [|split]; cbn [filesystem current_path with_filesystem].
  - apply Forall_forall. intros r Hr.
    assert (Hp : In (path r) (map path (filesystem self)))
      by (rewrite <- (update_content_paths _ c q); now apply in_map).
    apply in_map_iff in Hp as (r' & <- & Hr').
    rewrite Forall_forall in Ha. now apply Ha.
  - now rewrite update_content_paths.
  - assumption.
Qed.

Lemma well_formed_append self r :
  well_formed self -> canonical (path r) -> lookup (filesystem self) (path r) = None ->
  well_formed (with_filesystem self (filesystem self ++ [r])%list).
Proof.
  intros (Ha & Hb & Hc) Hr Hnone.
  split; [|split]; cbn [filesystem current_path with_filesystem].
  - apply Forall_app. split; [assumption | constructor; [assumption | constructor]].
  - rewrite map_app. cbn [map]. apply NoDup_app; [assumption | | ].
    + constructor; [intros [] | constructor].
    + intros x Hx [<-|[]]. apply in_map_iff in Hx as (r' & Heq & Hr').
      rewrite lookup_None in Hnone. exact (Hnone r' Hr' Heq).
  - assumption.
Qed.

Lemma well_formed_delete self q :
  well_formed self ->
  well_formed (with_filesystem self (Sqlite.delete_path (filesystem self) q)).
Proof.
  intros (Ha & Hb & Hc). split; [|split]; cbn [filesystem current_path with_filesystem].
  - unfold Sqlite.delete_path. rewrite Forall_forall in *.
    intros r Hr. apply filter_In in Hr as [Hr _]. now apply Ha.
  - now apply NoDup_map_filter.
  - assumption.
Qed.

Lemma startup_well_formed : well_formed startup.
Proof.
  split; [|split].
  - repeat constructor; cbn [path];
      match goal with
      | |- canonical ?p =>
          change p with (normalize_path startup p); apply normalize_path_canonical
      end.
  - cbn. repeat constructor; cbn; intuition discriminate.
  - change (current_path startup) with (normalize_path startup "/").
    apply normalize_path_canonical.
Qed.

Lemma after_well_formed self o : well_formed self -> well_formed (after self o).
Proof.
  intros H. destruct o as [p c a|p|p|p|].
  - rewrite after_write_file. cbv zeta.
    destruct (lookup _ _) as [r|] eqn:E.
    + destruct (is_file_row r); [now apply well_formed_update | assumption].
    + apply well_formed_append; [assumption | apply normalize_path_canonical | exact E].
  - rewrite after_create_directory. cbv zeta.
    destruct (lookup _ _) as [r|] eqn:E; [assumption|].
    destruct (_ && _); [assumption|].
    apply well_formed_append; [assumption | apply normalize_path_canonical | exact E].
  - rewrite after_remove. cbv zeta.
    destruct (lookup _ _) as [r|] eqn:E; [|assumption].
    destruct (_ && _); [assumption | now apply well_formed_delete].
  - rewrite after_change_directory. cbv zeta.
    destruct (lookup _ _) as [r|] eqn:E; [|assumption].
    destruct (is_dir_row r); [|assumption].
    destruct H as (Ha & Hb & _). repeat split; try assumption.
    apply normalize_path_canonical.
  - rewrite after_reset. apply startup_well_formed.
Qed.

Lemma reachable_well_formed calls : well_formed (session startup calls).
Proof.
  apply session_ind; [apply startup_well_formed|].
  intros s o. apply after_well_formed.
Qed.

Lemma where_path_unique t p r :
  NoDup (map path t) -> lookup t p = Some r -> Sqlite.where_path t p = [r].
Proof.
  unfold lookup, Sqlite.fetchone, Sqlite.where_path.
  induction t as [|x t IH]; simpl; [discriminate|].
  intros Hn. inversion Hn as [|? ? Hx Hl]; subst.
  destruct (path x =? p) eqn:E; simpl.
  - intros [= ->]. f_equal. apply String.eqb_eq in E.
    destruct (filter (fun r0 => path r0 =? p) t) as [|y l] eqn:F; [reflexivity|].
    exfalso. apply Hx.
    assert (Hy : In y (filter (fun r0 => path r0 =? p) t)) by (rewrite F; now left).
    apply filter_In in Hy as [Hy Hp]. apply String.eqb_eq in Hp.
    rewrite E, <- Hp. now apply in_map.
  - now apply IH.
Qed.

(** ** Shape of canonical paths and the pattern of the root *)

Lemma join_head sep w ws :
  exists rest, Py.join sep (w :: ws) = w ++ rest.
Proof.
  destruct ws as [|w' ws]; simpl.
  - exists "". now rewrite append_empty_r.
  - eauto.
Qed.

Lemma canonical_cases p :
  canonical p ->
  p = "/" \/ exists c rest, p = String Py.slash (String c rest) /\ c <> Py.slash.
Proof.
  intros (parts & Hall & ->). destruct parts as [|w ws]; [now left|]. right.
  inversion Hall as [|? ? (Hne & _ & _ & Hfree) _]; subst.
  destruct w as [|c w]; [contradiction|].
  destruct (join_head "/" (String c w) ws) as (rest & Hj).
  exists c, (w ++ rest). split.
  - change (render_parts (String c w :: ws))
      with (String Py.slash (Py.join "/" (String c w :: ws))).
    now rewrite Hj.
  - simpl in Hfree. apply orb_false_iff in Hfree as [Hc _].
    now apply Ascii.eqb_neq in Hc.
Qed.

Lemma glob_match_all s : Sqlite.glob_match [Sqlite.MatchAll] s = true.
Proof. induction s as [|c s IH]; [reflexivity | exact IH]. Qed.

Lemma c_str_free s : has_char Sqlite.NUL s = false -> Sqlite.c_str s = s.
Proof.
  induction s as [|c s IH]; simpl; intros H; [reflexivity|].
  apply orb_false_iff in H as [Hc Hs]. now rewrite Hc, IH.
Qed.

(** Below the root the pattern [/[^/]*] finds every canonical path but
    [/] itself. *)
Lemma GLOB_below_root x :
  canonical x -> x <> "/" -> has_char Sqlite.NUL x = false ->
  Sqlite.GLOB x (children_pattern "/") = true.
Proof.
  intros Hc Hne Hnul.
  destruct (canonical_cases x Hc) as [->|(c & rest & -> & Hslash)]; [contradiction|].
  unfold Sqlite.GLOB. rewrite (c_str_free _ Hnul).
  change (Sqlite.compile Sqlite.Plain (Sqlite.c_str (children_pattern "/")))
    with [Sqlite.Literal Py.slash; Sqlite.MatchSet true [Sqlite.Single Py.slash];
          Sqlite.MatchAll].
  cbn [Sqlite.glob_match Sqlite.token_accepts existsb Sqlite.item_has].
  rewrite Ascii.eqb_refl. apply Ascii.eqb_neq in Hslash. rewrite Hslash.
  cbn [orb xorb andb]. apply glob_match_all.
Qed.

(** ** The root node *)

Lemma root_directory_after self o :
  root_directory self -> removes_root self o = false -> root_directory (after self o).
Proof.
  intros (r & Hr & Hdir) Hkeep. destruct o as [p c a|p|p|p|].
  - rewrite after_write_file. cbv zeta.
    destruct (lookup (filesystem self) (normalize_path self p)) as [r'|] eqn:E.
    + destruct (is_file_row r'); [|now exists r].
      unfold root_directory. cbn [filesystem with_filesystem].
      rewrite lookup_update, Hr.
      destruct (_ =? "/"); [exists (set_content (if a then content r' ++ c else c) r)
                           | exists r]; auto.
    + exists r. cbn [filesystem with_filesystem]. now rewrite lookup_app, Hr.
  - rewrite after_create_directory. cbv zeta.
    destruct (lookup (filesystem self) (normalize_path self p)); [now exists r|].
    destruct (_ && _); [now exists r|].
    exists r. cbn [filesystem with_filesystem]. now rewrite lookup_app, Hr.
  - rewrite after_remove. cbv zeta.
    unfold removes_root in Hkeep. rewrite remove_lookup in Hkeep. cbv zeta in Hkeep.
    destruct (lookup (filesystem self) (normalize_path self p)) as [r'|] eqn:E;
      [|now exists r].
    destruct (is_dir_row r' && _); [now exists r|].
    rewrite andb_true_r in Hkeep.
    exists r. cbn [filesystem with_filesystem]. now rewrite lookup_delete, Hkeep.
  - rewrite after_change_directory. cbv zeta.
    destruct (lookup (filesystem self) (normalize_path self p)) as [r'|];
      [destruct (is_dir_row r')|]; now exists r.
  - rewrite after_reset. eexists. split; reflexivity.
Qed.

Lemma root_kept_directory calls :
  forall self, root_directory self -> root_kept self calls ->
               root_directory (session self calls).
Proof.
  induction calls as [|o calls IH]; intros self Hroot Hkept; [exact Hroot|].
  destruct Hkept as [Ho Hrest]. simpl. apply IH; [|exact Hrest].
  now apply root_directory_after.
Qed.

(** C3, as the code has it.  The root row is there, alone and a directory,
    as long as no [remove] of the root has succeeded; and such a [remove]
    succeeds only once every other stored path (NUL-free paths all being
    matched by the pattern of the root) is gone. *)
Theorem root_in_place_until_removed :
  forall calls : list call,
    root_kept startup calls ->
    let self := session startup calls in
    root_in_place self /\
    (forall o, removes_root self o = true ->
       forall r, In r (filesystem self) -> has_char Sqlite.NUL (path r) = false ->
                 path r = "/").
Proof.
  intros calls Hkept self.
  destruct (reachable_well_formed calls) as (Hcanon & Hnodup & _). fold self in Hcanon, Hnodup.
  assert (Hroot : root_directory self).
  { apply root_kept_directory; [eexists; split; reflexivity | assumption]. }
  split.
  - destruct Hroot as (r & Hr & Hdir). exists r. split; [|assumption].
    now apply where_path_unique.
  - intros o Hrm r Hin Hnul.
    destruct o as [| |p| |]; try discriminate Hrm.
    unfold removes_root in Hrm. rewrite remove_lookup in Hrm. cbv zeta in Hrm.
    apply andb_true_iff in Hrm as [Hq Hrm]. apply String.eqb_eq in Hq.
    rewrite Hq in Hrm. destruct Hroot as (r0 & Hr0 & Hdir). rewrite Hr0 in Hrm.
    unfold is_dir_row in Hrm. rewrite Hdir in Hrm. cbn [type_text String.eqb] in Hrm.
    change (("directory" =? "directory")) with true in Hrm. cbn [andb] in Hrm.
    destruct (0 <? length (Sqlite.where_glob (filesystem self) (children_pattern "/")))%nat
      eqn:Hcount; [discriminate|].
    destruct (String.eqb_spec (path r) "/") as [|Hne]; [assumption|]. exfalso.
    assert (Hg : In r (Sqlite.where_glob (filesystem self) (children_pattern "/"))).
    { apply filter_In. split; [assumption|].
      apply GLOB_below_root; [|assumption|assumption].
      rewrite Forall_forall in Hcanon. now apply Hcanon. }
    destruct (Sqlite.where_glob (filesystem self) (children_pattern "/"));
      [destruct Hg | discriminate Hcount].
Qed.

Lemma root_in_place_until_removed_witness :
  root_kept startup [Remove "/home"; CreateDirectory "/x"; Remove "/"] /\
  root_in_place (session startup [Remove "/home"; CreateDirectory "/x"; Remove "/"]).
Proof.
  assert (H : root_kept startup [Remove "/home"; CreateDirectory "/x"; Remove "/"])
    by (vm_compute; tauto).
  split; [exact H|].
  exact (proj1 (root_in_place_until_removed _ H)).
Defined.

(** C3, as the design document has it, fails: once the defaults are
    removed, [remove("/")] deletes the root row. *)
Lemma root_can_be_removed :
  let calls := [Remove "/home"; Remove "/tmp"; Remove "/usr"; Remove "/var";
                Remove "/welcome.txt"; Remove "/"] in
  perform (session startup (removelast calls)) (Remove "/")
    = Returned (true, mkVFS [] "/") /\
  filesystem (session startup calls) = [] /\
  ~ root_in_place (session startup calls).
Proof.
  cbv zeta. split; [reflexivity|]. split; [reflexivity|].
  intros (r & Hr & _). vm_compute in Hr. discriminate Hr.
Qed.

(** ** The cursor *)

Lemma canonical_absolute p : canonical p -> Py.startswith_slash p = true.
Proof.
  intros (parts & _ & ->). destruct (render_parts_head parts) as (t & ->). reflexivity.
Qed.

Lemma cursor_valid_lookup self :
  canonical (current_path self) ->
  (cursor_valid self <->
   exists r, lookup (filesystem self) (current_path self) = Some r /\ is_dir_row r = true).
Proof.
  intros Hc. unfold cursor_valid. rewrite is_directory_lookup.
  rewrite (normalize_canonical self _ Hc).
  destruct (lookup (filesystem self) (current_path self)) as [r|].
  - split; [intros H; now exists r | now intros (r' & [= <-] & H)].
  - split; [discriminate | now intros (r' & [=] & _)].
Qed.

Lemma cursor_valid_after self o :
  well_formed self -> cursor_valid self ->
  (forall p, o = Remove p -> normalize_path self p <> current_path self) ->
  cursor_valid (after self o).
Proof.
  intros Hwf Hvalid Hremove.
  assert (Hwf' := after_well_formed self o Hwf).
  destruct Hwf as (_ & _ & Hc). destruct Hwf' as (_ & _ & Hc').
  apply (cursor_valid_lookup _ Hc'). apply (cursor_valid_lookup _ Hc) in Hvalid.
  clear Hc'. destruct Hvalid as (r & Hr & Hdir). destruct o as [p c a|p|p|p|].
  - rewrite after_write_file. cbv zeta.
    destruct (lookup (filesystem self) (normalize_path self p)) as [r'|] eqn:E.
    + destruct (is_file_row r'); [|now exists r].
      cbn [filesystem current_path with_filesystem]. rewrite lookup_update, Hr.
      destruct (_ =? current_path self);
        [exists (set_content (if a then content r' ++ c else c) r) | exists r]; auto.
    + exists r. cbn [filesystem current_path with_filesystem].
      now rewrite lookup_app, Hr.
  - rewrite after_create_directory. cbv zeta.
    destruct (lookup (filesystem self) (normalize_path self p)); [now exists r|].
    destruct (_ && _); [now exists r|].
    exists r. cbn [filesystem current_path with_filesystem].
    now rewrite lookup_app, Hr.
  - rewrite after_remove. cbv zeta.
    destruct (lookup (filesystem self) (normalize_path self p)) as [r'|]; [|now exists r].
    destruct (_ && _); [now exists r|].
    exists r. cbn [filesystem current_path with_filesystem]. rewrite lookup_delete.
    specialize (Hremove p eq_refl). apply String.eqb_neq in Hremove.
    now rewrite Hremove.
  - rewrite after_change_directory. cbv zeta.
    destruct (lookup (filesystem self) (normalize_path self p)) as [r'|] eqn:E;
      [|now exists r].
    destruct (is_dir_row r') eqn:D; [|now exists r].
    exists r'. cbn [filesystem current_path with_current_path]. now split.
  - rewrite after_reset. eexists. split; reflexivity.
Qed.

(** C4, as the code has it.  After any call of a session the cursor is a
    canonical absolute path.  It changes only in a [change_directory] that
    succeeds, to the normalised argument, then a stored directory, and in
    [reset_filesystem], to [/].  It goes on naming a stored directory over
    every call but a [remove] of that very directory. *)
Theorem cursor_changes_and_validity :
  forall (calls : list call) (o : call),
    let self := session startup calls in
    let self' := after self o in
    (canonical (current_path self') /\ Py.startswith_slash (current_path self') = true) /\
    match o with
    | ChangeDirectory p =>
        (fst (change_directory self p) = true /\
         current_path self' = normalize_path self p /\ cursor_valid self') \/
        (fst (change_directory self p) = false /\ self' = self)
    | Reset => current_path self' = "/" /\ cursor_valid self'
    | _ => current_path self' = current_path self
    end /\
    (cursor_valid self ->
     (forall p, o = Remove p -> normalize_path self p <> current_path self) ->
     cursor_valid self').
Proof.
  intros calls o self self'.
  assert (Hwf : well_formed self) by apply reachable_well_formed.
  assert (Hwf' : well_formed self') by now apply after_well_formed.
  split; [|split].
  - destruct Hwf' as (_ & _ & Hc). split; [assumption | now apply canonical_absolute].
  - subst self'. destruct o as [p c a|p|p|p|].
    + rewrite after_write_file. cbv zeta.
      destruct (lookup _ _) as [r|]; [destruct (is_file_row r)|]; reflexivity.
    + rewrite after_create_directory. cbv zeta.
      destruct (lookup _ _) as [r|]; [|destruct (_ && _)]; reflexivity.
    + rewrite after_remove. cbv zeta.
      destruct (lookup _ _) as [r|]; [destruct (_ && _)|]; reflexivity.
    + rewrite after_change_directory, change_directory_lookup. cbv zeta.
      destruct (lookup (filesystem self) (normalize_path self p)) as [r|] eqn:E;
        [|now right].
      destruct (is_dir_row r) eqn:D; [left | now right].
      split; [reflexivity|]. split; [reflexivity|].
      apply cursor_valid_lookup; [apply normalize_path_canonical|]. now exists r.
    + split; reflexivity.
  - intros Hvalid Hremove. now apply cursor_valid_after.
Qed.

Lemma cursor_changes_and_validity_witness :
  cursor_valid (after (session startup [ChangeDirectory "home"]) (Remove "/tmp")).
Proof.
  apply (cursor_changes_and_validity [ChangeDirectory "home"] (Remove "/tmp")).
  - reflexivity.
  - intros p [= <-]. vm_compute. discriminate.
Defined.

(** C4, as the design document has it, fails twice: [remove] deletes the
    directory the cursor names, and [reset_filesystem] moves the cursor. *)
Lemma cursor_left_dangling_and_reset :
  (let self := session startup [ChangeDirectory "/home"; Remove "/home"] in
   current_path self = "/home" /\
   exists_ self (current_path self) = false /\
   is_directory self (current_path self) = false) /\
  (let self := session startup [ChangeDirectory "/home"] in
   current_path self = "/home" /\ current_path (after self Reset) = "/").
Proof. vm_compute. repeat split; reflexivity. Qed.

(** ** Parent paths *)

Lemma rsplit_slash_length p :
  String.length (fst (Py.rsplit_slash p)) + String.length (snd (Py.rsplit_slash p))
  = String.length p.
Proof.
  induction p as [|c p IH]; simpl; [reflexivity|].
  destruct (Py.rsplit_slash p) as [h t]. simpl in IH.
  destruct h as [|x h]; simpl in *.
  - destruct (Ascii.eqb c Py.slash); simpl; lia.
  - lia.
Qed.

Lemma rsplit_slash_head p :
  fst (Py.rsplit_slash p) = "" \/ ends_in_slash (fst (Py.rsplit_slash p)) = true.
Proof.
  induction p as [|c p IH]; simpl; [now left|].
  destruct (Py.rsplit_slash p) as [h t]. simpl in IH.
  destruct h as [|x h]; simpl.
  - destruct (Ascii.eqb c Py.slash) eqn:E; simpl; [right; exact E | now left].
  - right. destruct IH as [IH|IH]; [discriminate | exact IH].
Qed.

Lemma rstrip_slash_length s : String.length (Py.rstrip_slash s) <= String.length s.
Proof.
  induction s as [|c s IH]; simpl; [lia|].
  destruct (Py.rstrip_slash s); simpl in *; [destruct (Ascii.eqb c Py.slash); simpl|]; lia.
Qed.

Lemma rstrip_slash_shorter s :
  ends_in_slash s = true -> String.length (Py.rstrip_slash s) < String.length s.
Proof.
  induction s as [|c s IH]; simpl; [discriminate|].
  destruct s as [|x s].
  - intros ->. simpl. lia.
  - intros H. specialize (IH H).
    destruct (Py.rstrip_slash (String x s)); simpl in *;
      [destruct (Ascii.eqb c Py.slash); simpl|]; lia.
Qed.

(** [os.path.dirname] gives its argument back only on runs of [/]. *)
Lemma dirname_fixed p : Py.dirname p = p -> Py.all_slashes p = true.
Proof.
  unfold Py.dirname. intros H.
  pose proof (rsplit_slash_length p) as Hlen.
  pose proof (rsplit_slash_head p) as Hhead.
  destruct (Py.rsplit_slash p) as [h t]. cbn [fst snd] in *.
  destruct (negb (h =? "") && negb (Py.all_slashes h)) eqn:C.
  - exfalso. apply andb_true_iff in C as [Hne _].
    apply negb_true_iff, String.eqb_neq in Hne.
    destruct Hhead as [E|E]; [contradiction|].
    apply rstrip_slash_shorter in E.
    apply (f_equal String.length) in H. lia.
  - subst h. apply andb_false_iff in C as [C|C].
    + apply negb_false_iff, String.eqb_eq in C. now subst p.
    + now apply negb_false_iff in C.
Qed.

Lemma canonical_all_slashes p : canonical p -> Py.all_slashes p = true -> p = "/".
Proof.
  intros Hc Hs. destruct (canonical_cases p Hc) as [|(c & rest & -> & Hne)]; [assumption|].
  apply Ascii.eqb_neq in Hne. simpl in Hs. unfold Py.slash in *.
  rewrite Hne in Hs. discriminate Hs.
Qed.

(** Only the root is its own parent. *)
Lemma dirname_self_root p : canonical p -> (Py.dirname p = p <-> p = "/").
Proof.
  intros Hc. split; [|now intros ->].
  intros H. apply canonical_all_slashes; [assumption | now apply dirname_fixed].
Qed.

(** The parent of a canonical path is the path without its last segment,
    and the name is that segment. *)

Lemma rsplit_slash_free w :
  has_char Py.slash w = false -> Py.rsplit_slash w = ("", w).
Proof.
  induction w as [|c w IH]; simpl; intros H; [reflexivity|].
  apply orb_false_iff in H as [Hc Hw]. now rewrite (IH Hw), Hc.
Qed.

Lemma rsplit_slash_last a w :
  has_char Py.slash w = false ->
  Py.rsplit_slash (a ++ String Py.slash w) = (a ++ "/", w).
Proof.
  intros Hw. induction a as [|x a IH].
  - cbn [append Py.rsplit_slash]. rewrite (rsplit_slash_free _ Hw).
    now rewrite Ascii.eqb_refl.
  - cbn [append Py.rsplit_slash]. rewrite IH. now destruct a.
Qed.

Lemma join_last sep parts w :
  parts <> [] -> Py.join sep (parts ++ [w]) = Py.join sep parts ++ sep ++ w.
Proof.
  induction parts as [|x parts IH]; intros Hne; [contradiction|].
  destruct parts as [|y parts]; [reflexivity|].
  change (Py.join sep ((x :: y :: parts) ++ [w]))
    with (x ++ sep ++ Py.join sep ((y :: parts) ++ [w])).
  rewrite IH by discriminate.
  change (Py.join sep (x :: y :: parts)) with (x ++ sep ++ Py.join sep (y :: parts)).
  now rewrite !append_assoc.
Qed.

Lemma rstrip_slash_last a : Py.rstrip_slash (a ++ "/") = Py.rstrip_slash a.
Proof. induction a as [|c a IH]; [reflexivity|]. simpl. now rewrite IH. Qed.

Lemma rstrip_slash_same a : ends_in_slash a = false -> Py.rstrip_slash a = a.
Proof.
  induction a as [|c a IH]; [reflexivity|]. destruct a as [|c' a].
  - simpl. now intros ->.
  - intros H. change (Py.rstrip_slash (String c (String c' a)))
      with (match Py.rstrip_slash (String c' a) with
            | EmptyString =>
                if Ascii.eqb c Py.slash then EmptyString else String c EmptyString
            | t => String c t
            end).
    now rewrite (IH H).
Qed.

Lemma ends_in_slash_app a w :
  w <> "" -> ends_in_slash (a ++ w) = ends_in_slash w.
Proof.
  intros Hw. induction a as [|c a IH]; [reflexivity|].
  cbn [append]. destruct (a ++ w) eqn:E.
  - destruct a; [simpl in E; contradiction | discriminate E].
  - exact IH.
Qed.

Lemma ends_in_slash_free w : has_char Py.slash w = false -> ends_in_slash w = false.
Proof.
  induction w as [|c w IH]; [reflexivity|]. simpl. intros H.
  apply orb_false_iff in H as [Hc Hw]. destruct w; [exact Hc | now apply IH].
Qed.

Lemma render_parts_last parts w :
  parts <> [] -> render_parts (parts ++ [w]) = render_parts parts ++ String Py.slash w.
Proof.
  intros Hne. destruct parts as [|x parts]; [contradiction|].
  change (render_parts ((x :: parts) ++ [w]))
    with ("/" ++ Py.join "/" ((x :: parts) ++ [w])).
  rewrite join_last by assumption. reflexivity.
Qed.

Lemma render_parts_end parts :
  Forall segment parts -> parts <> [] -> ends_in_slash (render_parts parts) = false.
Proof.
  intros Hall Hne. destruct (exists_last Hne) as (init & w & ->).
  apply Forall_app in Hall as [_ Hw]. inversion Hw as [|? ? (Hw1 & _ & _ & Hw2) _]; subst.
  destruct init as [|x init].
  - cbn. destruct w as [|c w]; [contradiction|]. now apply ends_in_slash_free.
  - rewrite render_parts_last by discriminate.
    rewrite ends_in_slash_app by discriminate.
    destruct w as [|c w]; [contradiction|].
    change (ends_in_slash (String Py.slash (String c w)))
      with (ends_in_slash (String c w)).
    now apply ends_in_slash_free.
Qed.

Lemma dirname_basename_canonical parts w :
  Forall segment parts -> segment w ->
  Py.dirname (render_parts (parts ++ [w])) = render_parts parts /\
  Py.basename (render_parts (parts ++ [w])) = w.
Proof.
  intros Hall Hw. pose proof (segment_free _ Hw) as Hfree.
  unfold Py.dirname, Py.basename. destruct parts as [|x parts].
  - change (render_parts ([] ++ [w])) with ("" ++ String Py.slash w).
    rewrite rsplit_slash_last by assumption. split; reflexivity.
  - rewrite render_parts_last by discriminate.
    rewrite rsplit_slash_last by assumption. cbn [fst snd]. split; [|reflexivity].
    assert (Hc : canonical (render_parts (x :: parts))) by (eexists; eauto).
    destruct (canonical_cases _ Hc) as [Hroot|(c & rest & Heq & Hne)].
    + inversion Hall as [|? ? (Hx & _ & _ & Hxf) _]; subst.
      destruct x as [|c x]; [contradiction|].
      destruct (join_head "/" (String c x) parts) as (rest & Hj).
      change (render_parts (String c x :: parts))
        with (String Py.slash (Py.join "/" (String c x :: parts))) in Hroot.
      rewrite Hj in Hroot. discriminate Hroot.
    + replace (negb (render_parts (x :: parts) ++ "/" =? "")
               && negb (Py.all_slashes (render_parts (x :: parts) ++ "/"))) with true.
      * rewrite rstrip_slash_last. apply rstrip_slash_same.
        apply render_parts_end; [assumption | discriminate].
      * rewrite Heq. apply Ascii.eqb_neq in Hne.
        cbn [append Py.all_slashes]. rewrite Hne, andb_false_r. reflexivity.
Qed.

(** ** Creation of directories *)

(** C6, as the code has it.  [create_directory] refuses a path that is
    stored already and a path other than [/] whose parent is not stored;
    otherwise it appends an empty directory row.  So a node other than the
    root made this way had a stored parent when it was made. *)
Theorem create_directory_guards :
  forall (self : VFS) (p : string),
    let q := normalize_path self p in
    let made := with_filesystem self
                  (filesystem self ++ [mkRow q (Py.basename q) directory ""])%list in
    (exists_ self q = true -> create_directory self p = Returned (false, self)) /\
    (exists_ self q = false -> q <> "/" -> exists_ self (Py.dirname q) = false ->
     create_directory self p = Returned (false, self)) /\
    (exists_ self q = false -> q = "/" \/ exists_ self (Py.dirname q) = true ->
     create_directory self p = Returned (true, made) /\ is_directory made q = true) /\
    (forall self', create_directory self p = Returned (true, self') -> q <> "/" ->
     exists_ self (Py.dirname q) = true).
Proof.
  intros self p q made.
  assert (Hq : canonical q) by apply normalize_path_canonical.
  assert (Hex : exists_ self q = is_some (lookup (filesystem self) q)).
  { rewrite exists_lookup. unfold q. now rewrite normalize_path_idem. }
  rewrite Hex, create_directory_lookup. cbv zeta. fold q.
  destruct (lookup (filesystem self) q) as [r|] eqn:E; cbn [is_some].
  - repeat split; try discriminate; reflexivity.
  - split; [discriminate|]. split; [|split].
    + intros _ Hne Hpar. rewrite Hpar.
      destruct (String.eqb_spec (Py.dirname q) q) as [Heq|_]; [|reflexivity].
      apply dirname_self_root in Heq; [contradiction | assumption].
    + intros _ Hor.
      assert (Hguard : negb (Py.dirname q =? q) && negb (exists_ self (Py.dirname q)) = false).
      { destruct Hor as [Hor|Hor]; rewrite Hor; [reflexivity | apply andb_false_r]. }
      rewrite Hguard. split; [reflexivity|].
      rewrite is_directory_lookup.
      replace (normalize_path made q) with q
        by (symmetry; now apply normalize_canonical).
      unfold made. cbn [filesystem with_filesystem].
      rewrite lookup_app, E. cbn [path]. now rewrite String.eqb_refl.
    + intros self' H Hne.
      destruct (exists_ self (Py.dirname q)); [reflexivity|]. exfalso.
      destruct (String.eqb_spec (Py.dirname q) q) as [Heq|_].
      * apply dirname_self_root in Heq; [contradiction | assumption].
      * discriminate H.
Qed.

Lemma create_directory_guards_witness :
  exists self', create_directory startup "/home/me" = Returned (true, self') /\
                is_directory self' "/home/me" = true.
Proof.
  eexists.
  apply (create_directory_guards startup "/home/me"); [reflexivity | right; reflexivity].
Defined.

(** C6, as the design document has it, fails: the parent need only be
    stored, not be a directory, and [/] is made without any parent. *)
Lemma create_directory_under_file_and_root :
  (Py.dirname "/welcome.txt/sub" = "/welcome.txt" /\
   is_directory startup "/welcome.txt" = false /\
   exists self', create_directory startup "/welcome.txt/sub" = Returned (true, self') /\
                 is_directory self' "/welcome.txt/sub" = true) /\
  (let self := session startup [Remove "/home"; Remove "/tmp"; Remove "/usr";
                                Remove "/var"; Remove "/welcome.txt"; Remove "/"] in
   exists_ self (Py.dirname "/") = false /\
   exists self', create_directory self "/" = Returned (true, self')).
Proof.
  split.
  - split; [reflexivity|]. split; [reflexivity|].
    eexists. split; [vm_compute; reflexivity | reflexivity].
  - cbv zeta. split; [reflexivity|]. eexists. vm_compute. reflexivity.
Qed.

(** ** Order of a listing *)

Lemma string_leb_trans x y z :
  String.leb x y = true -> String.leb y z = true -> String.leb x z = true.
Proof.
  unfold String.leb.
  destruct (String.compare x y) eqn:A; try discriminate; intros _.
  - apply String.compare_eq_iff in A. now subst y.
  - destruct (String.compare y z) eqn:B; try discriminate; intros _.
    + apply String.compare_eq_iff in B. subst z. now rewrite A.
    + apply String_as_OT.cmp_lt in A, B.
      pose proof (String_as_OT.lt_trans _ _ _ A B) as C.
      apply String_as_OT.cmp_lt in C. unfold String_as_OT.cmp in C. now rewrite C.
Qed.

Lemma row_leb_trans : Transitive (fun x y => is_true (RowOrder.leb x y)).
Proof.
  intros a b c. unfold is_true, RowOrder.leb.
  destruct (type a), (type b), (type c); cbn; try discriminate; auto;
    apply string_leb_trans.
Qed.

Lemma row_leb_listed a b :
  RowOrder.leb a b = true -> listed_before (name a, type a) (name b, type b).
Proof.
  unfold RowOrder.leb, listed_before. cbn [fst snd].
  destruct (type a), (type b); cbn; try discriminate; auto.
Qed.

Lemma StronglySorted_map {A B} (R : A -> A -> Prop) (R' : B -> B -> Prop) (f : A -> B) l :
  (forall a b, R a b -> R' (f a) (f b)) ->
  StronglySorted R l -> StronglySorted R' (map f l).
Proof.
  intros HR. induction 1 as [|x l Hl IH Hx]; simpl; constructor; [assumption|].
  apply Forall_map. eapply Forall_impl; [|exact Hx]. intros b. apply HR.
Qed.

(** C5, as the code has it.  A listing comes with the files before the
    directories, and by name (byte order) within each of the two. *)
Theorem listing_files_first :
  forall (self : VFS) (p : option string) (l : list (string * node_type)),
    list_directory self p = Some l -> StronglySorted listed_before l.
Proof.
  intros self p l. unfold list_directory.
  destruct (negb _ || negb _); [discriminate|]. intros [= <-].
  apply (StronglySorted_map (fun x y => is_true (RowOrder.leb x y))).
  - intros a b. apply row_leb_listed.
  - unfold order_by_type_desc_name. apply RowSort.StronglySorted_sort, row_leb_trans.
Qed.

Lemma listing_files_first_witness :
  StronglySorted listed_before
    [("welcome.txt", file); ("home", directory); ("tmp", directory);
     ("usr", directory); ("var", directory)].
Proof.
  apply (listing_files_first startup (Some "/")). reflexivity.
Defined.

(** C5, as the design document has it, fails: the listing of the root of a
    new store starts with the file. *)
Lemma listing_not_directories_first :
  exists l, list_directory startup (Some "/") = Some l /\
            ~ StronglySorted directories_first l.
Proof.
  eexists. split; [reflexivity|].
  intros H. apply StronglySorted_inv in H as [_ H].
  apply Forall_inv in H. destruct H as [[H _]|[H _]]; discriminate H.
Qed.

(** ** The pattern of a directory whose path has no pattern characters *)








Lemma no_double_slash_free w r :
  has_char Py.slash w = false -> no_double_slash r = true ->
  no_double_slash (w ++ r) = true.
Proof.
  induction w as [|c w IH]; simpl; intros Hw Hr; [assumption|].
  apply orb_false_iff in Hw as [Hc Hw]. specialize (IH Hw Hr).
  destruct (w ++ r); [reflexivity|]. now rewrite Hc, IH.
Qed.

Lemma no_double_slash_cons a c s :
  Ascii.eqb c Py.slash = false ->
  no_double_slash (String a (String c s)) = no_double_slash (String c s).
Proof.
  intros H.
  change (no_double_slash (String a (String c s)))
    with (negb (Ascii.eqb a Py.slash && Ascii.eqb c Py.slash)
          && no_double_slash (String c s)).
  now rewrite H, andb_false_r.
Qed.

Lemma no_double_slash_join parts :
  Forall segment parts -> parts <> [] ->
  no_double_slash (String Py.slash (Py.join "/" parts)) = true.
Proof.
  induction parts as [|w ws IH]; intros Hall Hne; [contradiction|].
  inversion Hall as [|? ? (Hw & _ & _ & Hfree) Hws]; subst.
  destruct w as [|c w]; [contradiction|].
  assert (Hc : Ascii.eqb c Py.slash = false)
    by (simpl in Hfree; now apply orb_false_iff in Hfree as [? _]).
  destruct ws as [|w' ws].
  - change (Py.join "/" [String c w]) with (String c w).
    rewrite (no_double_slash_cons _ _ _ Hc).
    rewrite <- (append_empty_r (String c w)). now apply no_double_slash_free.
  - change (Py.join "/" (String c w :: w' :: ws))
      with (String c (w ++ String Py.slash (Py.join "/" (w' :: ws)))).
    rewrite (no_double_slash_cons _ _ _ Hc).
    change (String c (w ++ String Py.slash (Py.join "/" (w' :: ws))))
      with (String c w ++ String Py.slash (Py.join "/" (w' :: ws))).
    apply no_double_slash_free; [assumption|].
    apply IH; [assumption | discriminate].
Qed.

Lemma canonical_no_double_slash x : canonical x -> no_double_slash x = true.
Proof.
  intros (parts & Hall & ->). destruct parts as [|w ws]; [reflexivity|].
  now apply no_double_slash_join.
Qed.










(** * Further properties of [vfs.py] *)

(** ** What the methods never do *)


(** ** Shape of the stored paths *)

Lemma NoDup_path_row t r r' :
  NoDup (map path t) -> In r t -> In r' t -> path r = path r' -> r = r'.
Proof.
  induction t as [|x t IH]; simpl; intros Hn Hr Hr' Heq; [contradiction|].
  inversion Hn as [|? ? Hx Hn']; subst.
  destruct Hr as [<-|Hr], Hr' as [<-|Hr']; auto.
  - exfalso. apply Hx. rewrite Heq. now apply in_map.
  - exfalso. apply Hx. rewrite <- Heq. now apply in_map.
Qed.

Lemma canonical_end p : canonical p -> p = "/" \/ ends_in_slash p = false.
Proof.
  intros (parts & Hall & ->). destruct parts as [|w ws]; [now left|]. right.
  apply render_parts_end; [assumption | discriminate].
Qed.

(** X2.  Every path a session stores is in normal form: it starts with
    [/], has no [//], does not end in [/] unless it is the root, and
    normalising it gives it back; and no two rows share a path. *)
Theorem stored_paths_normal_and_unique :
  forall (calls : list call) (r : row),
    let self := session startup calls in
    In r (filesystem self) ->
    Py.startswith_slash (path r) = true /\
    no_double_slash (path r) = true /\
    (path r = "/" \/ ends_in_slash (path r) = false) /\
    normalize_path self (path r) = path r /\
    (forall r', In r' (filesystem self) -> path r' = path r -> r' = r).
Proof.
  intros calls r self Hin.
  destruct (reachable_well_formed calls) as (Hcanon & Hnodup & _).
  fold self in Hcanon, Hnodup. rewrite Forall_forall in Hcanon.
  pose proof (Hcanon r Hin) as Hc. repeat split.
  - now apply canonical_absolute.
  - now apply canonical_no_double_slash.
  - now apply canonical_end.
  - now apply normalize_canonical.
  - intros r' Hin' Heq. now apply (NoDup_path_row (filesystem self)).
Qed.

Lemma stored_paths_normal_and_unique_witness :
  Py.startswith_slash "/a/b" = true /\
  no_double_slash "/a/b" = true /\
  ("/a/b" = "/" \/ ends_in_slash "/a/b" = false).
Proof.
  pose proof (stored_paths_normal_and_unique
                [WriteFile "/a/./b" "x" false] (mkRow "/a/b" "b" file "x")) as H.
  cbv zeta in H.
  assert (Hin : In (mkRow "/a/b" "b" file "x")
                   (filesystem (session startup [WriteFile "/a/./b" "x" false])))
    by (vm_compute; tauto).
  destruct (H Hin) as (H1 & H2 & H3 & _). exact (conj H1 (conj H2 H3)).
Defined.

(** ** Writing, reading, removing *)

(** X3.  What is written to a path that is not a directory is what is
    read there, the path is a file from then on, and a second plain write
    replaces the first. *)
Theorem write_then_read :
  forall (self : VFS) (p c1 c2 : string),
    is_directory self p = false ->
    exists s1 s2,
      write_file self p c1 false = Returned (true, s1) /\
      read_file s1 p = Some c1 /\ is_file s1 p = true /\
      write_file s1 p c2 false = Returned (true, s2) /\
      read_file s2 p = Some c2.
Proof.
  intros self p c1 c2 Hdir.
  rewrite is_directory_lookup in Hdir.
  set (q := normalize_path self p) in *.
  assert (Hq : forall t, normalize_path (with_filesystem self t) p = q)
    by (intros t; now apply normalize_path_cursor).
  assert (Hfirst : exists t r1,
             write_file self p c1 false = Returned (true, with_filesystem self t) /\
             lookup t q = Some r1 /\ is_file_row r1 = true /\ content r1 = c1).
  { rewrite write_file_lookup. cbv zeta. fold q.
    destruct (lookup (filesystem self) q) as [r|] eqn:E.
    - assert (Hf : is_file_row r = true) by (rewrite is_file_row_dir, Hdir; reflexivity).
      rewrite Hf. eexists. exists (set_content c1 r). split; [reflexivity|].
      rewrite lookup_update, String.eqb_refl, E. auto.
    - eexists. exists (mkRow q (Py.basename q) file c1). split; [reflexivity|].
      rewrite lookup_app, E. cbn [path]. rewrite String.eqb_refl. auto. }
  destruct Hfirst as (t & r1 & Hw & Hl & Hf & Hc).
  exists (with_filesystem self t).
  exists (with_filesystem self (Sqlite.update_content t c2 q)).
  split; [exact Hw|]. split; [|split; [|split]].
  - rewrite read_file_lookup, Hq. cbn [filesystem with_filesystem].
    now rewrite Hl, Hf, Hc.
  - rewrite is_file_lookup, Hq. cbn [filesystem with_filesystem]. now rewrite Hl.
  - rewrite write_file_lookup. cbv zeta. rewrite Hq. cbn [filesystem with_filesystem].
    now rewrite Hl, Hf.
  - rewrite read_file_lookup.
    change (normalize_path _ p) with (normalize_path (with_filesystem self []) p).
    rewrite Hq. cbn [filesystem with_filesystem].
    rewrite lookup_update, String.eqb_refl, Hl. cbn [option_map].
    change (is_file_row (set_content c2 r1)) with (is_file_row r1). now rewrite Hf.
Qed.

Lemma write_then_read_witness :
  exists s1 s2,
    write_file startup "notes" "one" false = Returned (true, s1) /\
    read_file s1 "notes" = Some "one" /\ is_file s1 "notes" = true /\
    write_file s1 "notes" "two" false = Returned (true, s2) /\
    read_file s2 "notes" = Some "two".
Proof. apply (write_then_read startup "notes" "one" "two"). reflexivity. Defined.

(** X4.  [remove] refuses a path that is not stored, always removes a
    file, and changes the object only when it returns [True]; after that
    the path is gone and the cursor is where it was. *)
Theorem remove_effects :
  forall (self : VFS) (p : string),
    (exists_ self p = false -> remove self p = Returned (false, self)) /\
    (is_file self p = true -> exists s, remove self p = Returned (true, s)) /\
    (forall b s, remove self p = Returned (b, s) ->
       current_path s = current_path self /\
       (b = false -> s = self) /\
       (b = true -> exists_ s p = false /\ read_file s p = None)).
Proof.
  intros self p. rewrite exists_lookup, is_file_lookup, remove_lookup. cbv zeta.
  set (q := normalize_path self p).
  destruct (lookup (filesystem self) q) as [r|] eqn:E; cbn [is_some].
  - split; [discriminate|]. split.
    + intros Hf. rewrite is_file_row_dir in Hf. apply negb_true_iff in Hf.
      rewrite Hf. cbn [andb]. eauto.
    + intros b s H. destruct (is_dir_row r && _); injection H as <- <-.
      * split; [reflexivity|]. split; [reflexivity | discriminate].
      * split; [reflexivity|]. split; [discriminate|]. intros _.
        assert (Hq : normalize_path
                       (with_filesystem self (Sqlite.delete_path (filesystem self) q)) p
                     = q) by now apply normalize_path_cursor.
        rewrite exists_lookup, read_file_lookup, Hq. cbn [filesystem with_filesystem].
        rewrite lookup_delete, String.eqb_refl. split; reflexivity.
  - split; [reflexivity|]. split; [discriminate|].
    intros b s [= <- <-]. split; [reflexivity|]. split; [reflexivity | discriminate].
Qed.

Lemma remove_effects_witness :
  exists s, remove startup "welcome.txt" = Returned (true, s).
Proof. apply (remove_effects startup "welcome.txt"). reflexivity. Defined.

(** ** One call, one path *)

Lemma after_touched self o t :
  touched self o = Some t ->
  current_path (after self o) = current_path self /\
  forall q, q <> t -> lookup (filesystem (after self o)) q = lookup (filesystem self) q.
Proof.
  intros Ht. destruct o as [p c a|p|p|p|]; try discriminate Ht;
    injection Ht as <-.
  - rewrite after_write_file. cbv zeta.
    destruct (lookup (filesystem self) (normalize_path self p)) as [r|] eqn:E.
    + destruct (is_file_row r); [|auto]. split; [reflexivity|]. intros q Hq.
      cbn [filesystem with_filesystem]. rewrite lookup_update.
      apply not_eq_sym, String.eqb_neq in Hq. now rewrite Hq.
    + split; [reflexivity|]. intros q Hq. cbn [filesystem with_filesystem].
      rewrite lookup_app. cbn [path].
      apply not_eq_sym, String.eqb_neq in Hq. rewrite Hq. now destruct (lookup _ q).
  - rewrite after_create_directory. cbv zeta.
    destruct (lookup (filesystem self) (normalize_path self p)) as [r|] eqn:E; [auto|].
    destruct (_ && _); [auto|]. split; [reflexivity|]. intros q Hq.
    cbn [filesystem with_filesystem]. rewrite lookup_app. cbn [path].
    apply not_eq_sym, String.eqb_neq in Hq. rewrite Hq. now destruct (lookup _ q).
  - rewrite after_remove. cbv zeta.
    destruct (lookup (filesystem self) (normalize_path self p)) as [r|] eqn:E; [|auto].
    destruct (_ && _); [auto|]. split; [reflexivity|]. intros q Hq.
    cbn [filesystem with_filesystem]. rewrite lookup_delete.
    apply not_eq_sym, String.eqb_neq in Hq. now rewrite Hq.
Qed.

(** X5.  A write, a creation or a removal leaves every other path as it
    was: whether it exists, what kind it is and what it holds.  So nothing
    is created along the way and nothing below a path goes with it. *)
Theorem mutations_touch_one_path :
  forall (self : VFS) (o : call) (t q : string),
    touched self o = Some t ->
    normalize_path self q <> t ->
    exists_ (after self o) q = exists_ self q /\
    is_file (after self o) q = is_file self q /\
    is_directory (after self o) q = is_directory self q /\
    read_file (after self o) q = read_file self q.
Proof.
  intros self o t q Ht Hq.
  destruct (after_touched self o t Ht) as [Hcur Hlook].
  assert (Hn : normalize_path (after self o) q = normalize_path self q)
    by now apply normalize_path_cursor.
  rewrite !exists_lookup, !is_file_lookup, !is_directory_lookup, !read_file_lookup.
  rewrite Hn, (Hlook _ Hq). repeat split; reflexivity.
Qed.

Lemma mutations_touch_one_path_witness :
  read_file (after startup (Remove "/home")) "/welcome.txt"
    = read_file startup "/welcome.txt".
Proof.
  apply (mutations_touch_one_path startup (Remove "/home") "/home" "/welcome.txt").
  - reflexivity.
  - vm_compute. discriminate.
Defined.

(** ** What a row holds *)

Lemma startup_tidy : Forall tidy_row (filesystem startup).
Proof.
  unfold startup. cbn [filesystem].
  repeat (apply Forall_cons;
          [split; [intros H; first [reflexivity | discriminate H]
                  | first [left; reflexivity | right; split; reflexivity]]|]).
  apply Forall_nil.
Qed.

Lemma tidy_row_after self o :
  well_formed self -> Forall tidy_row (filesystem self) ->
  Forall tidy_row (filesystem (after self o)).
Proof.
  intros (_ & Hnodup & _) Htidy. destruct o as [p c a|p|p|p|].
  - rewrite after_write_file. cbv zeta.
    destruct (lookup (filesystem self) (normalize_path self p)) as [r|] eqn:E.
    + destruct (is_file_row r) eqn:Hf; [|assumption].
      cbn [filesystem with_filesystem]. unfold Sqlite.update_content.
      apply Forall_map. rewrite Forall_forall in *. intros x Hx.
      destruct (String.eqb_spec (path x) (normalize_path self p)) as [Heq|_];
        [|now apply Htidy].
      assert (x = r).
      { apply (NoDup_path_row (filesystem self)); auto.
        - now apply (lookup_In _ (normalize_path self p)).
        - rewrite Heq. symmetry. now apply lookup_path in E. }
      subst x. destruct (Htidy r Hx) as [_ Hname]. split; [|exact Hname].
      cbn [type]. intros Hd. unfold is_file_row in Hf. rewrite Hd in Hf.
      discriminate Hf.
    + cbn [filesystem with_filesystem]. apply Forall_app. split; [assumption|].
      constructor; [|constructor]. split; [discriminate | now left].
  - rewrite after_create_directory. cbv zeta.
    destruct (lookup (filesystem self) (normalize_path self p)); [assumption|].
    destruct (_ && _); [assumption|].
    cbn [filesystem with_filesystem]. apply Forall_app. split; [assumption|].
    constructor; [|constructor]. split; [reflexivity | now left].
  - rewrite after_remove. cbv zeta.
    destruct (lookup (filesystem self) (normalize_path self p)); [|assumption].
    destruct (_ && _); [assumption|].
    cbn [filesystem with_filesystem]. unfold Sqlite.delete_path.
    rewrite Forall_forall in *. intros x Hx. apply filter_In in Hx as [Hx _]. auto.
  - rewrite after_change_directory. cbv zeta.
    destruct (lookup (filesystem self) (normalize_path self p)) as [r|];
      [destruct (is_dir_row r)|]; assumption.
  - rewrite after_reset. apply startup_tidy.
Qed.

Lemma canonical_last p :
  canonical p -> p <> "/" ->
  exists parts w, Forall segment parts /\ segment w /\ p = render_parts (parts ++ [w]).
Proof.
  intros (parts & Hall & ->) Hne.
  destruct parts as [|x parts]; [contradiction|].
  assert (Hnil : x :: parts <> []) by discriminate.
  destruct (exists_last Hnil) as (init & w & Heq). rewrite Heq in *.
  apply Forall_app in Hall as [Hinit Hw]. inversion Hw; subst. eauto.
Qed.

(** X6.  In every row a session stores, a directory has no content, and
    the name is the last segment of the path; the root is named [root],
    or has no name once it was removed and made again. *)
Theorem stored_rows_tidy :
  forall (calls : list call) (r : row),
    In r (filesystem (session startup calls)) ->
    (type r = directory -> content r = "") /\
    (path r = "/" -> name r = "root" \/ name r = "") /\
    (path r <> "/" ->
     exists parts w, Forall segment parts /\ segment w /\
                     path r = render_parts (parts ++ [w]) /\ name r = w).
Proof.
  intros calls r Hin.
  assert (H : well_formed (session startup calls) /\
              Forall tidy_row (filesystem (session startup calls))).
  { apply (session_ind (fun s => well_formed s /\ Forall tidy_row (filesystem s))).
    - split; [apply startup_well_formed | apply startup_tidy].
    - intros s o [Hwf Ht]. split; [now apply after_well_formed | now apply tidy_row_after]. }
  destruct H as [(Hcanon & _ & _) Htidy]. rewrite Forall_forall in Hcanon, Htidy.
  destruct (Htidy r Hin) as [Hdir Hname]. pose proof (Hcanon r Hin) as Hc.
  split; [exact Hdir|]. split.
  - intros Hroot. destruct Hname as [Hname|[_ Hname]]; [right | now left].
    rewrite Hname, Hroot. reflexivity.
  - intros Hne. destruct (canonical_last _ Hc Hne) as (parts & w & Hparts & Hw & Heq).
    exists parts, w. repeat split; try assumption; try apply Hw.
    destruct Hname as [Hname|[Hroot _]]; [|contradiction].
    rewrite Hname, Heq. now apply dirname_basename_canonical.
Qed.

Lemma stored_rows_tidy_witness :
  exists parts w, Forall segment parts /\ segment w /\
                  "/a/b" = render_parts (parts ++ [w]) /\ "b" = w.
Proof.
  assert (Hin : In (mkRow "/a/b" "b" file "x")
                   (filesystem (session startup [WriteFile "/a/./b" "x" false])))
    by (vm_compute; tauto).
  apply (stored_rows_tidy [WriteFile "/a/./b" "x" false] _ Hin). discriminate.
Defined.

(** ** Steps of a path *)

Lemma split_app sep a b :
  Py.split sep (a ++ String sep b) = (Py.split sep a ++ Py.split sep b)%list.
Proof.
  induction a as [|c a IH]; simpl.
  - now rewrite Ascii.eqb_refl.
  - destruct (Ascii.eqb c sep); rewrite IH; [reflexivity|].
    pose proof (split_not_nil sep a) as Hne.
    destruct (Py.split sep a); [contradiction | reflexivity].
Qed.

Lemma absolute_form_app self p tail :
  p <> "" -> absolute_form self (p ++ tail) = absolute_form self p ++ tail.
Proof.
  intros Hne. destruct p as [|c p]; [contradiction|].
  unfold absolute_form. cbn [append Py.startswith_slash].
  destruct (Ascii.eqb c Py.slash); cbn [negb]; [reflexivity|].
  destruct (current_path self =? "/"); [reflexivity|].
  now rewrite !append_assoc.
Qed.

Lemma normalize_tail self p tail :
  p <> "" ->
  normalize_path self (p ++ String Py.slash tail)
  = render_parts (fold_left resolve_part (Py.split Py.slash tail)
                    (resolve_parts (Py.split Py.slash (absolute_form self p)))).
Proof.
  intros Hne.
  change (normalize_path self (p ++ String Py.slash tail))
    with (render_parts (resolve_parts
            (Py.split Py.slash (absolute_form self (p ++ String Py.slash tail))))).
  rewrite absolute_form_app by assumption.
  rewrite split_app. unfold resolve_parts. now rewrite fold_left_app.
Qed.

Lemma resolved_segments self p :
  Forall segment (resolve_parts (Py.split Py.slash (absolute_form self p))).
Proof. apply resolve_keeps; [constructor | apply split_free]. Qed.

Lemma render_parts_parent parts :
  Forall segment parts -> render_parts (removelast parts) = Py.dirname (render_parts parts).
Proof.
  intros Hall. destruct parts as [|x parts]; [reflexivity|].
  assert (Hnil : x :: parts <> []) by discriminate.
  destruct (exists_last Hnil) as (init & w & Heq). rewrite Heq in *.
  apply Forall_app in Hall as [Hinit Hw]. inversion Hw; subst.
  rewrite removelast_last. symmetry. now apply dirname_basename_canonical.
Qed.

Lemma render_parts_child parts w :
  Forall segment parts ->
  render_parts (parts ++ [w]) = children_prefix (render_parts parts) ++ w.
Proof.
  intros Hall. destruct parts as [|x parts]; [reflexivity|].
  rewrite render_parts_last by discriminate. unfold children_prefix.
  destruct (String.eqb_spec (render_parts (x :: parts)) "/") as [Hroot|_].
  - exfalso. inversion Hall as [|? ? (Hx & _) _]; subst.
    destruct x as [|c x]; [contradiction|].
    destruct (join_head "/" (String c x) parts) as (rest & Hj).
    change (render_parts (String c x :: parts))
      with (String Py.slash (Py.join "/" (String c x :: parts))) in Hroot.
    rewrite Hj in Hroot. discriminate Hroot.
  - now rewrite append_assoc.
Qed.

(** X7.  How a path grows: a closing [/] or [/.] changes nothing, [/..]
    leads to the parent ([os.path.dirname] of the normal form, the root
    being its own parent), and a further segment is put behind the normal
    form with one [/]. *)
Theorem normalize_path_steps :
  forall (self : VFS) (p w : string),
    p <> "" ->
    normalize_path self (p ++ "/") = normalize_path self p /\
    normalize_path self (p ++ "/.") = normalize_path self p /\
    normalize_path self (p ++ "/..") = Py.dirname (normalize_path self p) /\
    (segment w ->
     normalize_path self (p ++ "/" ++ w) = children_prefix (normalize_path self p) ++ w).
Proof.
  intros self p w Hne.
  pose proof (resolved_segments self p) as Hseg.
  change (normalize_path self p)
    with (render_parts (resolve_parts (Py.split Py.slash (absolute_form self p)))).
  repeat split.
  - change "/" with (String Py.slash ""). now rewrite normalize_tail.
  - change "/." with (String Py.slash "."). now rewrite normalize_tail.
  - change "/.." with (String Py.slash ".."). rewrite normalize_tail by assumption.
    cbn [Py.split fold_left]. change (Ascii.eqb "." Py.slash) with false.
    cbn [Py.split fold_left]. unfold resolve_part at 1. cbn [String.eqb orb].
    change (".." =? "") with false. change (".." =? ".") with false.
    change (".." =? "..") with true. cbn [orb]. now apply render_parts_parent.
  - intros Hw. change ("/" ++ w) with (String Py.slash w).
    rewrite normalize_tail by assumption.
    rewrite (split_word _ _ (segment_free _ Hw)). cbn [fold_left].
    rewrite resolve_part_segment by assumption. now apply render_parts_child.
Qed.

Lemma normalize_path_steps_witness :
  normalize_path startup ("/home/me" ++ "/..") = Py.dirname (normalize_path startup "/home/me").
Proof. apply (normalize_path_steps startup "/home/me" "x"). discriminate. Defined.

Lemma absolute_form_relative self p :
  Py.startswith_slash p = false ->
  absolute_form self p = children_prefix (current_path self) ++ p.
Proof.
  intros Hp. unfold absolute_form, children_prefix. rewrite Hp. cbn [negb].
  destruct (String.eqb_spec (current_path self) "/") as [->|_]; [reflexivity|].
  now rewrite append_assoc.
Qed.

Lemma segment_relative w : segment w -> Py.startswith_slash w = false.
Proof.
  intros (Hne & _ & _ & Hfree). destruct w as [|c w]; [reflexivity|].
  simpl in *. now apply orb_false_iff in Hfree as [Hc _].
Qed.

(** X8.  In a session a path that does not start with [/] is read from
    the cursor: the empty path and [.] are the cursor, [..] is its parent,
    and a single segment is the entry of that name in it. *)
Theorem relative_paths_resolve_against_cursor :
  forall (calls : list call) (w : string),
    let self := session startup calls in
    let cur := current_path self in
    normalize_path self "" = cur /\
    normalize_path self "." = cur /\
    normalize_path self ".." = Py.dirname cur /\
    (segment w -> normalize_path self w = children_prefix cur ++ w).
Proof.
  intros calls w self cur.
  destruct (reachable_well_formed calls) as (_ & _ & Hc). fold self in Hc. fold cur in Hc.
  assert (Hrel : forall p, Py.startswith_slash p = false ->
            normalize_path self p
            = render_parts (resolve_parts
                (Py.split Py.slash (children_prefix cur ++ p)))).
  { intros p Hp. unfold cur. rewrite <- absolute_form_relative by assumption.
    reflexivity. }
  destruct Hc as (parts & Hparts & Hcur).
  assert (Hres : forall tail,
            resolve_parts (Py.split Py.slash (children_prefix cur ++ tail))
            = fold_left resolve_part (Py.split Py.slash tail) parts).
  { intros tail. rewrite Hcur. destruct parts as [|x parts].
    - change (children_prefix (render_parts []) ++ tail)
        with ("" ++ String Py.slash tail).
      rewrite split_app. reflexivity.
    - assert (Hne : render_parts (x :: parts) <> "/").
      { inversion Hparts as [|? ? (Hx & _) _]; subst.
        destruct x as [|c x]; [contradiction|].
        destruct (join_head "/" (String c x) parts) as (rest & Hj).
        change (render_parts (String c x :: parts))
          with (String Py.slash (Py.join "/" (String c x :: parts))).
        rewrite Hj. discriminate. }
      unfold children_prefix. apply String.eqb_neq in Hne. rewrite Hne.
      rewrite append_assoc. change ("/" ++ tail) with (String Py.slash tail).
      rewrite split_app. unfold resolve_parts. rewrite fold_left_app. f_equal.
      change (render_parts (x :: parts))
        with (String Py.slash (Py.join (String Py.slash "") (x :: parts))).
      cbn [Py.split]. rewrite Ascii.eqb_refl.
      rewrite split_join;
        [| discriminate
         | eapply Forall_impl; [|exact Hparts]; intros; now apply segment_free].
      change (fold_left resolve_part ("" :: x :: parts) [])
        with (fold_left resolve_part (x :: parts) []).
      now rewrite resolve_segments. }
  repeat split.
  - rewrite Hrel, Hres by reflexivity. now rewrite Hcur.
  - rewrite Hrel, Hres by reflexivity. now rewrite Hcur.
  - rewrite Hrel, Hres by reflexivity. rewrite Hcur.
    change (fold_left resolve_part (Py.split Py.slash "..") parts)
      with (removelast parts).
    now apply render_parts_parent.
  - intros Hw. rewrite Hrel, Hres by now apply segment_relative.
    rewrite (split_word _ _ (segment_free _ Hw)). cbn [fold_left].
    rewrite resolve_part_segment by assumption. rewrite Hcur.
    now apply render_parts_child.
Qed.

Lemma relative_paths_resolve_against_cursor_witness :
  normalize_path (session startup [ChangeDirectory "home"]) "me"
  = children_prefix (current_path (session startup [ChangeDirectory "home"])) ++ "me".
Proof.
  apply (relative_paths_resolve_against_cursor [ChangeDirectory "home"] "me").
  split; [discriminate|]. split; [discriminate|]. split; [discriminate | reflexivity].
Defined.

(** X9.  Whatever the argument and the cursor are, the result of
    [normalize_path] starts with [/], has no [//], ends in [/] only when
    it is [/], and has no segment [.] or [..]. *)
Theorem normalize_path_shape :
  forall (self : VFS) (p : string),
    let q := normalize_path self p in
    Py.startswith_slash q = true /\
    no_double_slash q = true /\
    (q = "/" \/ ends_in_slash q = false) /\
    Forall (fun w => w <> "." /\ w <> "..") (Py.split Py.slash q).
Proof.
  intros self p q.
  pose proof (normalize_path_canonical self p) as Hc. fold q in Hc.
  split; [now apply canonical_absolute|].
  split; [now apply canonical_no_double_slash|].
  split; [now apply canonical_end|].
  destruct Hc as (parts & Hparts & ->). destruct parts as [|x parts].
  - repeat constructor; discriminate.
  - change (render_parts (x :: parts))
      with (String Py.slash (Py.join (String Py.slash "") (x :: parts))).
    cbn [Py.split]. rewrite Ascii.eqb_refl.
    rewrite split_join;
      [| discriminate
       | eapply Forall_impl; [|exact Hparts]; intros; now apply segment_free].
    constructor; [split; discriminate|].
    eapply Forall_impl; [|exact Hparts]. intros a (_ & H1 & H2 & _). now split.
Qed.

(** ** A new directory in the listing of its parent *)



(** ** Opening a stored database again *)

Lemma INSERT_lookup t r :
  INSERT t r = if is_some (lookup t (path r)) then Raised IntegrityError
               else Returned (t ++ [r])%list.
Proof. unfold INSERT. rewrite unique_ok_lookup. now destruct (lookup t (path r)). Qed.

Lemma lookup_where_path t p :
  lookup t p = None -> Sqlite.where_path t p = [].
Proof.
  unfold lookup, Sqlite.fetchone. now destruct (Sqlite.where_path t p).
Qed.

(** X13.  Opening the database of a session in which the root was not
    removed finds every row as it was left; only the cursor starts at [/]
    again. *)
Theorem reopening_keeps_the_store :
  forall calls : list call,
    root_kept startup calls ->
    let self := session startup calls in
    VFS_init (filesystem self) = Returned (mkVFS (filesystem self) "/").
Proof.
  intros calls Hkept self.
  assert (Hroot : root_directory self).
  { apply root_kept_directory; [eexists; split; reflexivity | assumption]. }
  destruct Hroot as (r & Hr & _).
  unfold VFS_init, init_database. cbn [filesystem].
  unfold lookup, Sqlite.fetchone in Hr.
  destruct (Sqlite.where_path (filesystem self) "/"); [discriminate Hr | reflexivity].
Qed.

Lemma reopening_keeps_the_store_witness :
  VFS_init (filesystem (session startup [ChangeDirectory "home"; WriteFile "f" "x" false]))
  = Returned (mkVFS (filesystem (session startup [ChangeDirectory "home";
                                                  WriteFile "f" "x" false])) "/").
Proof.
  apply (reopening_keeps_the_store [ChangeDirectory "home"; WriteFile "f" "x" false]).
  vm_compute. tauto.
Defined.

(** X14.  Opening a database that has lost its root row but holds one of
    the default paths raises: [init_database] inserts the defaults again
    and meets the UNIQUE constraint. *)
Theorem reopening_without_root_raises :
  forall (stored : table) (d : string),
    lookup stored "/" = None ->
    In d ["/home"; "/tmp"; "/usr"; "/var"; "/welcome.txt"] ->
    is_some (lookup stored d) = true ->
    VFS_init stored = Raised IntegrityError.
Proof.
  intros stored d Hroot Hd Hsome.
  unfold VFS_init, init_database. cbn [filesystem].
  rewrite (lookup_where_path _ _ Hroot). cbn [length Nat.eqb].
  unfold insert_defaults, default_dirs.
  rewrite INSERT_lookup. cbn [path]. rewrite Hroot. cbn [is_some bind fold_left].
  destruct (lookup stored "/home") eqn:H1;
    [| destruct (lookup stored "/tmp") eqn:H2;
       [| destruct (lookup stored "/usr") eqn:H3;
          [| destruct (lookup stored "/var") eqn:H4;
             [| destruct (lookup stored "/welcome.txt") eqn:H5]]]];
    repeat (rewrite INSERT_lookup; cbn [path]; rewrite !lookup_app; cbn [path];
            rewrite ?H1, ?H2, ?H3, ?H4, ?H5;
            cbn [String.eqb Ascii.eqb Bool.eqb is_some bind]);
    try reflexivity.
  exfalso. cbn [In] in Hd.
  destruct Hd as [<-|[<-|[<-|[<-|[<-|[]]]]]];
    match goal with
    | H : lookup stored ?x = None, G : is_some (lookup stored ?x) = true |- _ =>
        rewrite H in G; discriminate G
    end.
Qed.

Lemma reopening_without_root_raises_witness :
  VFS_init (filesystem (session startup
              [Remove "/home"; Remove "/tmp"; Remove "/usr"; Remove "/var";
               Remove "/welcome.txt"; Remove "/"; WriteFile "/home" "" false]))
  = Raised IntegrityError.
Proof.
  apply (reopening_without_root_raises _ "/home").
  - reflexivity.
  - now left.
  - reflexivity.
Defined.

(** * Properties of the commands of [core.py] *)

(** ** The methods as the commands use them *)

Lemma write_file_outcome self p c a :
  exists b s, write_file self p c a = Returned (b, s) /\
              current_path s = current_path self /\
              b = negb (is_directory self p) /\
              (b = false -> s = self) /\
              (forall x, lookup (filesystem self) x <> None ->
                         lookup (filesystem s) x <> None).
Proof.
  rewrite write_file_lookup, is_directory_lookup. cbv zeta.
  destruct (lookup (filesystem self) (normalize_path self p)) as [r|] eqn:E.
  - rewrite is_file_row_dir. destruct (is_dir_row r); cbn [negb].
    + exists false, self. repeat split; auto.
    + eexists. eexists. split; [reflexivity|]. repeat split; [discriminate|].
      intros x Hx. cbn [filesystem with_filesystem]. rewrite lookup_update.
      destruct (_ =? x); [|assumption].
      destruct (lookup (filesystem self) x); [discriminate | contradiction].
  - eexists. eexists. split; [reflexivity|]. repeat split; [discriminate|].
    intros x Hx. cbn [filesystem with_filesystem]. rewrite lookup_app.
    destruct (lookup (filesystem self) x); [discriminate | contradiction].
Qed.

Lemma write_file_reads self p c :
  is_directory self p = false ->
  exists s, write_file self p c false = Returned (true, s) /\
            current_path s = current_path self /\
            read_file s p = Some c.
Proof.
  intros Hdir. rewrite is_directory_lookup in Hdir.
  rewrite write_file_lookup. cbv zeta.
  set (q := normalize_path self p) in *.
  assert (Hq : forall t, normalize_path (with_filesystem self t) p = q)
    by (intros t; now apply normalize_path_cursor).
  destruct (lookup (filesystem self) q) as [r|] eqn:E.
  - assert (Hf : is_file_row r = true) by (rewrite is_file_row_dir, Hdir; reflexivity).
    rewrite Hf. eexists. split; [reflexivity|]. split; [reflexivity|].
    rewrite read_file_lookup, Hq. cbn [filesystem with_filesystem].
    rewrite lookup_update, String.eqb_refl, E. cbn [option_map].
    change (is_file_row (set_content c r)) with (is_file_row r). now rewrite Hf.
  - eexists. split; [reflexivity|]. split; [reflexivity|].
    rewrite read_file_lookup, Hq. cbn [filesystem with_filesystem].
    rewrite lookup_app, E. cbn [path]. now rewrite String.eqb_refl.
Qed.

(** A file that reads empty still does after an empty write anywhere. *)
Lemma empty_write_keeps_empty self g x s :
  write_file self g "" false = Returned (true, s) ->
  read_file self x = Some "" -> read_file s x = Some "".
Proof.
  rewrite write_file_lookup. cbv zeta. intros Hw Hx.
  rewrite read_file_lookup in Hx.
  assert (Hn : forall t, normalize_path (with_filesystem self t) x = normalize_path self x)
    by (intros t; now apply normalize_path_cursor).
  destruct (lookup (filesystem self) (normalize_path self x)) as [rx|] eqn:Ex;
    [|discriminate].
  destruct (is_file_row rx) eqn:Hfx; [|discriminate]. injection Hx as Hcx.
  destruct (lookup (filesystem self) (normalize_path self g)) as [r|] eqn:E.
  - destruct (is_file_row r); [injection Hw as <- | discriminate Hw].
    rewrite read_file_lookup, Hn. cbn [filesystem with_filesystem].
    rewrite lookup_update, Ex.
    destruct (_ =? normalize_path self x); cbn [option_map].
    + change (is_file_row (set_content "" rx)) with (is_file_row rx). now rewrite Hfx.
    + now rewrite Hfx, Hcx.
  - injection Hw as <-. rewrite read_file_lookup, Hn. cbn [filesystem with_filesystem].
    rewrite lookup_app, Ex. now rewrite Hfx, Hcx.
Qed.

Lemma create_directory_outcome self p :
  exists b s, create_directory self p = Returned (b, s) /\
              current_path s = current_path self /\
              (b = true -> is_directory s p = true) /\
              (forall x, is_directory self x = true -> is_directory s x = true).
Proof.
  rewrite create_directory_lookup. cbv zeta.
  assert (Hn : forall t y, normalize_path (with_filesystem self t) y = normalize_path self y)
    by (intros t y; now apply normalize_path_cursor).
  set (q := normalize_path self p) in *.
  destruct (lookup (filesystem self) q) as [r|] eqn:E.
  - exists false, self. repeat split; auto. discriminate.
  - destruct (_ && _).
    + exists false, self. repeat split; auto. discriminate.
    + eexists. eexists. split; [reflexivity|]. split; [reflexivity|]. split.
      * intros _. rewrite is_directory_lookup, Hn. fold q.
        cbn [filesystem with_filesystem]. rewrite lookup_app, E. cbn [path].
        now rewrite String.eqb_refl.
      * intros x. rewrite !is_directory_lookup, Hn.
        cbn [filesystem with_filesystem]. rewrite lookup_app.
        destruct (lookup (filesystem self) (normalize_path self x)); [auto | discriminate].
Qed.


Lemma is_directory_exists self p : is_directory self p = true -> exists_ self p = true.
Proof.
  rewrite is_directory_lookup, exists_lookup.
  now destruct (lookup (filesystem self) (normalize_path self p)).
Qed.

(** ** [rm] *)



(** ** [touch] *)

Lemma touch_loop_empties args :
  forall vfs vfs',
    touch_loop args vfs = Returned ("", vfs') ->
    (forall x, read_file vfs x = Some "" -> read_file vfs' x = Some "") /\
    (forall f, In f args -> read_file vfs' f = Some "").
Proof.
  induction args as [|f rest IH]; intros vfs vfs'.
  - intros [= <-]. split; [auto | intros f []].
  - cbn [touch_loop].
    destruct (write_file_outcome vfs f "" false) as (b & s & Hw & _ & Hb & _ & _).
    rewrite Hw. cbn [bind fst snd]. destruct b; cbn [negb]; [|discriminate].
    intros Hloop. destruct (IH _ _ Hloop) as [Hkeep Hrest].
    symmetry in Hb. apply negb_true_iff in Hb.
    destruct (write_file_reads vfs f "" Hb) as (s' & Hw' & _ & Hread).
    rewrite Hw in Hw'. injection Hw' as <-. split.
    + intros x Hx. apply Hkeep. now apply (empty_write_keeps_empty vfs f x s).
    + intros x [<-|Hx]; auto.
Qed.

(** X16.  When [touch] prints nothing, every argument is a file that
    reads empty: a file that was there has lost its content. *)
Theorem touch_command_empties :
  forall (args : list string) (vfs vfs' : VFS),
    touch_command args vfs = Returned ("", vfs') ->
    forall f, In f args -> read_file vfs' f = Some "".
Proof.
  intros args vfs vfs' H f Hf. destruct args as [|a args]; [destruct Hf|].
  change (touch_command (a :: args) vfs) with (touch_loop (a :: args) vfs) in H.
  now apply (touch_loop_empties (a :: args) vfs vfs').
Qed.

Lemma touch_command_empties_witness :
  read_file (mkVFS (Sqlite.update_content (filesystem startup) "" "/welcome.txt") "/")
            "/welcome.txt" = Some "".
Proof.
  apply (touch_command_empties ["/welcome.txt"] startup); [reflexivity | now left].
Defined.

(** ** [echo] and [cat] *)

Lemma rstrip_space s c : isspace c = true -> rstrip (s ++ String c "") = rstrip s.
Proof.
  intros Hc. induction s as [|x s IH]; simpl; [now rewrite Hc | now rewrite IH].
Qed.

Lemma split_at_first_absent x words rest :
  contains x words = false ->
  split_at_first x (words ++ x :: rest) = Some (words, rest).
Proof.
  induction words as [|w words IH]; simpl; intros H.
  - now rewrite String.eqb_refl.
  - apply orb_false_iff in H as [Hw Hrest]. now rewrite Hw, (IH Hrest).
Qed.

(** X17.  [echo words > f] on a path that is not a directory prints
    nothing, and [cat f] then prints the words joined by single spaces,
    less the white space at their end. *)
Theorem echo_then_cat :
  forall (words : list string) (f : string) (vfs : VFS),
    contains ">" words = false ->
    is_directory vfs f = false ->
    exists vfs',
      echo_command (words ++ [">"; f]) vfs = Returned ("", vfs') /\
      cat_command [f] vfs' = Returned (rstrip (Py.join " " words), vfs').
Proof.
  intros words f vfs Hwords Hdir.
  destruct (write_file_reads vfs f (Py.join " " words ++ newline) Hdir)
    as (s & Hw & _ & Hread).
  exists s. split.
  - unfold echo_command.
    rewrite (split_at_first_absent ">" words [f] Hwords).
    destruct (words ++ [">"; f])%list eqn:E; [now destruct words|].
    unfold echo_redirect. rewrite Hw. reflexivity.
  - unfold cat_command. rewrite Hread. f_equal. f_equal.
    apply rstrip_space. reflexivity.
Qed.

Lemma echo_then_cat_witness :
  exists vfs',
    echo_command (["hello"; "world "] ++ [">"; "/tmp/greeting"]) startup
      = Returned ("", vfs') /\
    cat_command ["/tmp/greeting"] vfs' = Returned ("hello world", vfs').
Proof.
  apply (echo_then_cat ["hello"; "world "] "/tmp/greeting" startup); reflexivity.
Defined.

(** ** [mkdir] *)

Lemma mkdir_loop_makes args :
  forall vfs, exists out vfs',
    mkdir_loop args vfs = Returned (out, vfs') /\
    current_path vfs' = current_path vfs /\
    (forall x, is_directory vfs x = true -> is_directory vfs' x = true) /\
    ((out = "" /\ forall d, In d args -> is_directory vfs' d = true) \/
     (exists made d rest,
        args = (made ++ d :: rest)%list /\
        out = "mkdir: cannot create directory '" ++ d ++ "'" /\
        forall x, In x made -> is_directory vfs' x = true)).
Proof.
  induction args as [|d rest IH]; intros vfs.
  - exists "", vfs. split; [reflexivity|]. split; [reflexivity|]. split; [auto|].
    left. split; [reflexivity | intros d []].
  - destruct (create_directory_outcome vfs d) as (b & s & Hc & Hcur & Hmade & Hkeep).
    cbn [mkdir_loop]. rewrite Hc. cbn [bind fst snd]. destruct b; cbn [negb].
    + destruct (IH s) as (out & vfs' & Hloop & Hcur' & Hkeep' & Hout).
      exists out, vfs'. split; [exact Hloop|]. split; [congruence|].
      split; [auto|]. destruct Hout as [[-> Hall]|(made & x & tl & -> & Hmsg & Hdone)].
      * left. split; [reflexivity|]. intros x [<-|Hx]; auto.
      * right. exists (d :: made), x, tl. split; [reflexivity|]. split; [exact Hmsg|].
        intros y [<-|Hy]; auto.
    + eexists. exists s. split; [reflexivity|]. split; [exact Hcur|]. split; [exact Hkeep|].
      right. exists [], d, rest. split; [reflexivity|]. split; [reflexivity|].
      intros x [].
Qed.

(** X18.  [mkdir] never raises, never moves the cursor and never unmakes
    a directory.  When it prints nothing, every argument is a directory
    afterwards; when it stops at an argument it cannot make, the
    directories made from the arguments before it stay. *)
Theorem mkdir_command_makes :
  forall (args : list string) (vfs : VFS),
    exists out vfs',
      mkdir_command args vfs = Returned (out, vfs') /\
      current_path vfs' = current_path vfs /\
      (forall x, is_directory vfs x = true -> is_directory vfs' x = true) /\
      ((args = [] /\ out = "mkdir: missing operand") \/
       (args <> [] /\ out = "" /\ forall d, In d args -> is_directory vfs' d = true) \/
       (exists made d rest,
          args = (made ++ d :: rest)%list /\
          out = "mkdir: cannot create directory '" ++ d ++ "'" /\
          forall x, In x made -> is_directory vfs' x = true)).
Proof.
  intros args vfs. destruct args as [|a args].
  - exists "mkdir: missing operand", vfs. repeat split; auto.
  - destruct (mkdir_loop_makes (a :: args) vfs) as (out & vfs' & Hloop & Hcur & Hkeep & Hout).
    exists out, vfs'. split; [exact Hloop|]. split; [exact Hcur|]. split; [exact Hkeep|].
    right. destruct Hout as [[-> Hall]|Hmsg]; [left | right; exact Hmsg].
    split; [discriminate|]. now split.
Qed.

(** ** [cd] and [pwd] *)

(** X19.  [cd] leaves the store alone.  To a directory it prints nothing,
    and [pwd] then prints the normal form of the argument ([/] without
    argument); to anything else it prints its refusal and the object is
    as it was. *)
Theorem cd_then_pwd :
  forall (args : list string) (vfs : VFS),
    let p := match args with [] => "/" | a :: _ => a end in
    exists out vfs',
      cd_command args vfs = Returned (out, vfs') /\
      filesystem vfs' = filesystem vfs /\
      ((is_directory vfs p = true /\ out = "" /\
        pwd_command [] vfs' = Returned (normalize_path vfs p, vfs') /\
        is_directory vfs' (normalize_path vfs p) = true) \/
       (is_directory vfs p = false /\
        out = "cd: " ++ p ++ ": No such directory" /\ vfs' = vfs)).
Proof.
  intros args vfs p. unfold cd_command. fold p.
  rewrite change_directory_lookup, is_directory_lookup. cbv zeta.
  destruct (lookup (filesystem vfs) (normalize_path vfs p)) as [r|] eqn:E.
  - destruct (is_dir_row r) eqn:D.
    + eexists. eexists. split; [reflexivity|]. split; [reflexivity|]. left.
      split; [reflexivity|]. split; [reflexivity|]. split; [reflexivity|].
      rewrite is_directory_lookup, normalize_path_idem.
      cbn [filesystem with_current_path]. now rewrite E.
    + eexists. eexists. split; [reflexivity|]. split; [reflexivity|]. right. auto.
  - eexists. eexists. split; [reflexivity|]. split; [reflexivity|]. right. auto.
Qed.

(** ** No command raises *)



